(** * Yamanote delay scraper: extraction and normalisation core

    A shallow embedding of [src/src/yamanote_scraper.py]
    ([YamanoteDelayScraper]): the date normaliser [_parse_date], the delay
    interpreter [_extract_delay_minutes], the record assembler
    [get_delay_history_data] and [scrape_delay_history].

    A call that can raise returns an [option], [None] standing for the
    exception: [int()] raises on more than 4300 digits, and
    [get_delay_history_data] turns any exception into the empty list.

    Python [str] values are sequences of Unicode code points and are modelled
    as [list Z].  The regular expressions of the source are run by a small
    backtracking matcher that follows the priority order of Python's [re]
    (greedy repetition, leftmost start).  The BeautifulSoup tree is a
    parameter of the assembler: a type of tags compared by [==], with
    [find_all] and [get_text(strip=True)].  The two pandas conversions of
    [scrape_delay_history] are parameters too. *)

From Stdlib Require Import ZArith Lia.
From stdpp Require Import base tactics option list numbers strings.

Local Open Scope Z_scope.

(** ** Python strings *)

(** A code point. *)
Definition char : Type := Z.

(** A Python [str]. *)
Definition str : Type := list char.

(** Decoding of UTF-8 bytes, used only to write the source's literals. *)
Fixpoint utf8_decode (bs : list Z) : str :=
  match bs with
  | [] => []
  | b0 :: bs1 =>
    if b0 <? 0x80 then b0 :: utf8_decode bs1
    else match bs1 with
    | [] => []
    | b1 :: bs2 =>
      if b0 <? 0xE0 then
        Z.lor (Z.shiftl (Z.land b0 0x1F) 6) (Z.land b1 0x3F) :: utf8_decode bs2
      else match bs2 with
      | [] => []
      | b2 :: bs3 =>
        if b0 <? 0xF0 then
          Z.lor (Z.shiftl (Z.land b0 0x0F) 12)
            (Z.lor (Z.shiftl (Z.land b1 0x3F) 6) (Z.land b2 0x3F))
          :: utf8_decode bs3
        else match bs3 with
        | [] => []
        | b3 :: bs4 =>
          Z.lor (Z.shiftl (Z.land b0 0x07) 18)
            (Z.lor (Z.shiftl (Z.land b1 0x3F) 12)
               (Z.lor (Z.shiftl (Z.land b2 0x3F) 6) (Z.land b3 0x3F)))
          :: utf8_decode bs4
        end
      end
    end
  end.

(** The [str] written by a source literal. *)
Definition py (s : String.string) : str :=
  utf8_decode
    (map (fun a => Z.of_N (Ascii.N_of_ascii a)) (String.list_ascii_of_string s)).
Arguments py s%_string.

(** The zero of every run of ten decimal digits (Unicode category Nd, Unicode
    14.0).  [\d] of a [str] pattern and [int()] both read this table. *)
Definition decimal_zeros : list char :=
  [ 0x30; 0x660; 0x6f0; 0x7c0; 0x966; 0x9e6; 0xa66; 0xae6; 0xb66; 0xbe6;
    0xc66; 0xce6; 0xd66; 0xde6; 0xe50; 0xed0; 0xf20; 0x1040; 0x1090; 0x17e0;
    0x1810; 0x1946; 0x19d0; 0x1a80; 0x1a90; 0x1b50; 0x1bb0; 0x1c40; 0x1c50;
    0xa620; 0xa8d0; 0xa900; 0xa9d0; 0xa9f0; 0xaa50; 0xabf0; 0xff10; 0x104a0;
    0x10d30; 0x11066; 0x110f0; 0x11136; 0x111d0; 0x112f0; 0x11450; 0x114d0;
    0x11650; 0x116c0; 0x11730; 0x118e0; 0x11950; 0x11c50; 0x11d50; 0x11da0;
    0x16a60; 0x16ac0; 0x16b50; 0x1d7ce; 0x1d7d8; 0x1d7e2; 0x1d7ec; 0x1d7f6;
    0x1e140; 0x1e2f0; 0x1e950; 0x1fbf0 ].

(** The value of a decimal digit, [None] for any other character. *)
Definition decimal_value (c : char) : option Z :=
  match List.find (fun z => (z <=? c) && (c <? z + 10)) decimal_zeros with
  | Some z => Some (c - z)
  | None => None
  end.

(** [c.isdecimal()], the test behind [\d]. *)
Definition isdecimal (c : char) : bool :=
  match decimal_value c with Some _ => true | None => false end.

(** The number a run of decimal digits spells.  [int()] is [py_int] below,
    which raises on a long run; [_strptime] reads its groups of at most four
    digits with this function as it is. *)
Definition int_of_digits (s : str) : Z :=
  fold_left (fun acc c => 10 * acc + default 0 (decimal_value c)) s 0.

(** [sys.int_info.default_max_str_digits] *)
Definition INT_MAX_STR_DIGITS : nat := 4300.

(** [int(s)] for [s] a run of decimal digits, which is all that a [\d]
    group captures (see [delay_group_digits] and [date_groups_digits]):
    [ValueError] ([None]) when [s] has more than 4300 characters, leading
    zeros included, and the number it spells otherwise. *)
Definition py_int (s : str) : option Z :=
  if (length s <=? INT_MAX_STR_DIGITS)%nat then Some (int_of_digits s)
  else None.

(** [c.isspace()]: the characters [str.strip()] removes. *)
Definition isspace (c : char) : bool :=
  ((0x09 <=? c) && (c <=? 0x0D)) || ((0x1C <=? c) && (c <=? 0x20))
  || (c =? 0x85) || (c =? 0xA0) || (c =? 0x1680)
  || ((0x2000 <=? c) && (c <=? 0x200A))
  || (c =? 0x2028) || (c =? 0x2029) || (c =? 0x202F) || (c =? 0x205F)
  || (c =? 0x3000).

Fixpoint lstrip (s : str) : str :=
  match s with
  | c :: s' => if isspace c then lstrip s' else s
  | [] => []
  end.

Definition rstrip (s : str) : str := rev (lstrip (rev s)).

(** [s.strip()] *)
Definition strip (s : str) : str := rstrip (lstrip s).

(** [s == t] on strings. *)
Definition str_eqb (s t : str) : bool := bool_decide (s = t).

(** [s.startswith(p)] *)
Fixpoint startswith (p s : str) : bool :=
  match p, s with
  | [], _ => true
  | a :: p', b :: s' => (a =? b) && startswith p' s'
  | _ :: _, [] => false
  end.

(** [needle in hay] on strings. *)
Fixpoint str_in (needle hay : str) : bool :=
  startswith needle hay ||
  match hay with
  | [] => false
  | _ :: hay' => str_in needle hay'
  end.

(** ** The literals of the source *)

Definition DASH : str := Eval vm_compute in py "-".
Definition OVER_61 : str := Eval vm_compute in py "61分以上".
Definition OVER_60 : str := Eval vm_compute in py "60分以上".
Definition CHIEN : str := Eval vm_compute in py "遅延".
Definition SHIHATSU : str := Eval vm_compute in py "始発".
Definition SHUDEN : str := Eval vm_compute in py "終電".
Definition JI : str := Eval vm_compute in py "時".
Definition FUMEI : str := Eval vm_compute in py "不明".
Definition c_month : char := 0x6708.
Definition c_day : char := 0x65e5.
Definition c_minute : char := 0x5206.
Definition c_hyphen : char := 0x2d.


(** ** Regular expressions, as Python's [re] runs them *)

(** A one-character pattern: a literal, [\d], or a range [[lo-hi]]. *)
Inductive cset : Type :=
| CChar (c : char)
| CDigit
| CRange (lo hi : char).

Definition cset_match (a : cset) (c : char) : bool :=
  match a with
  | CChar x => c =? x
  | CDigit => isdecimal c
  | CRange lo hi => (lo <=? c) && (c <=? hi)
  end.

(** The patterns of the source need literals, [\d], ranges, sequence,
    alternation, greedy bounded repetition of a one-character pattern
    ([\d+], [\d{1,2}]) and capture groups. *)
Inductive regex : Type :=
| Atom (a : cset)
| Seq (r1 r2 : regex)
| Alt (r1 r2 : regex)
| Rep (a : cset) (lo : nat) (hi : option nat)
| Group (n : nat) (r : regex).

(** The groups of a match: group number and captured text. *)
Definition groups : Type := list (nat * str).

(** One way to match at the start of a string: the text consumed, the text
    left, and the groups. *)
Definition partial : Type := (str * str * groups)%type.

(** Greedy [a{lo,hi}]: the longest run first, then shorter ones, the order in
    which the backtracking matcher tries them. *)
Fixpoint rep_greedy (a : cset) (lo : nat) (hi : option nat) (s : str)
  : list (str * str) :=
  let stop := match lo with O => [([], s)] | S _ => [] end in
  match s with
  | c :: s' =>
    if cset_match a c && negb (bool_decide (hi = Some O))
    then map (fun mr => (c :: fst mr, snd mr))
           (rep_greedy a (Nat.pred lo) (Nat.pred <$> hi) s') ++ stop
    else stop
  | [] => stop
  end.

(** Every way [r] matches at the start of [s], in the matcher's order of
    preference. *)
Fixpoint run (r : regex) (s : str) : list partial :=
  match r with
  | Atom a =>
    match s with
    | c :: s' => if cset_match a c then [([c], s', [])] else []
    | [] => []
    end
  | Seq r1 r2 =>
    flat_map (fun p1 : partial =>
      let '(m1, s1, g1) := p1 in
      map (fun p2 : partial =>
        let '(m2, s2, g2) := p2 in (m1 ++ m2, s2, g1 ++ g2)) (run r2 s1))
      (run r1 s)
  | Alt r1 r2 => run r1 s ++ run r2 s
  | Rep a lo hi => map (fun mr => (fst mr, snd mr, [])) (rep_greedy a lo hi s)
  | Group n r' =>
    map (fun p : partial => let '(m, s', g) := p in (m, s', g ++ [(n, m)]))
      (run r' s)
  end.

(** [re.match(r, s)]: the preferred match at the start of [s]. *)
Definition re_match (r : regex) (s : str) : option partial := head (run r s).

(** [re.search(r, s)]: the preferred match at the leftmost start that has
    one (the end of the string is a start too). *)
Fixpoint search (r : regex) (s : str) : option partial :=
  match re_match r s with
  | Some m => Some m
  | None =>
    match s with
    | [] => None
    | _ :: s' => search r s'
    end
  end.

(** [m.group(n)] *)
Definition group (n : nat) (m : partial) : str :=
  match List.find (fun g => Nat.eqb (fst g) n) (snd m) with
  | Some g => snd g
  | None => []
  end.

(** [(\d{1,2})月(\d{1,2})日] *)
Definition RE_DATE : regex :=
  Seq (Group 1 (Rep CDigit 1 (Some 2%nat)))
    (Seq (Atom (CChar c_month))
       (Seq (Group 2 (Rep CDigit 1 (Some 2%nat))) (Atom (CChar c_day)))).

(** [(\d+)分] *)
Definition RE_DELAY : regex :=
  Seq (Group 1 (Rep CDigit 1 None)) (Atom (CChar c_minute)).

(** ** Integer formatting *)

(** The decimal digits of [n >= 0], most significant first, put before
    [acc]. *)
Fixpoint digits_fuel (fuel : nat) (n : Z) (acc : str) : str :=
  match fuel with
  | O => acc
  | S fuel' =>
    let acc' := (0x30 + n mod 10) :: acc in
    if n <? 10 then acc' else digits_fuel fuel' (n / 10) acc'
  end.

(** [str(n)] for [n >= 0]. *)
Definition str_of_nonneg (n : Z) : str :=
  digits_fuel (S (Z.to_nat (Z.log2 n))) n [].

(** Zero padding on the left up to [width] characters. *)
Definition zfill (width : nat) (s : str) : str :=
  replicate (width - length s) 0x30 ++ s.

(** [f"{n:0{width}d}"] *)
Definition format_d (width : nat) (n : Z) : str :=
  if n <? 0 then c_hyphen :: zfill (width - 1) (str_of_nonneg (- n))
  else zfill width (str_of_nonneg n).

(** ** Dates *)

(** What the source reads of a [datetime]: [datetime.now()] is an input of
    the model. *)
Record datetime : Type := mk_datetime { dt_year : Z; dt_month : Z; dt_day : Z }.

Definition _is_leap (y : Z) : bool :=
  (y mod 4 =? 0) && (negb (y mod 100 =? 0) || (y mod 400 =? 0)).

Definition _DAYS_IN_MONTH : list Z :=
  [-1; 31; 28; 31; 30; 31; 30; 31; 31; 30; 31; 30; 31].

Definition _DAYS_BEFORE_MONTH : list Z :=
  [-1; 0; 31; 59; 90; 120; 151; 181; 212; 243; 273; 304; 334].

Definition _days_before_year (y : Z) : Z :=
  let y := y - 1 in y * 365 + y / 4 - y / 100 + y / 400.

Definition _days_in_month (y m : Z) : Z :=
  if (m =? 2) && _is_leap y then 29
  else default 0 (_DAYS_IN_MONTH !! Z.to_nat m).

Definition _days_before_month (y m : Z) : Z :=
  default 0 (_DAYS_BEFORE_MONTH !! Z.to_nat m)
  + (if (2 <? m) && _is_leap y then 1 else 0).

Definition _ymd2ord (y m d : Z) : Z :=
  _days_before_year y + _days_before_month y m + d.

(** The check of the [datetime] constructor. *)
Definition valid_date (y m d : Z) : bool :=
  (1 <=? y) && (y <=? 9999) && (1 <=? m) && (m <=? 12)
  && (1 <=? d) && (d <=? _days_in_month y m).

(** [date_obj.weekday()]: Monday is 0. *)
Definition weekday (dt : datetime) : Z :=
  (_ymd2ord (dt_year dt) (dt_month dt) (dt_day dt) + 6) mod 7.

(** The pattern [_strptime] builds for the format ['%Y-%m-%d']. *)
Definition RE_YMD : regex :=
  let d09 := Atom CDigit in
  let r19 := Atom (CRange 0x31 0x39) in
  let lit c := Atom (CChar c) in
  Seq (Group 1 (Seq d09 (Seq d09 (Seq d09 d09))))
    (Seq (lit c_hyphen)
       (Seq (Group 2
               (Alt (Seq (lit 0x31) (Atom (CRange 0x30 0x32)))
                  (Alt (Seq (lit 0x30) r19) r19)))
          (Seq (lit c_hyphen)
             (Group 3
                (Alt (Seq (lit 0x33) (Atom (CRange 0x30 0x31)))
                   (Alt (Seq (Atom (CRange 0x31 0x32)) d09)
                      (Alt (Seq (lit 0x30) r19)
                         (Alt r19 (Seq (lit 0x20) r19))))))))).

(** [datetime.strptime(s, '%Y-%m-%d')]; [None] stands for [ValueError]: the
    pattern does not match at the start, text is left over, or the fields are
    no calendar date. *)
Definition strptime_ymd (s : str) : option datetime :=
  match re_match RE_YMD s with
  | Some m =>
    match snd (fst m) with
    | [] =>
      let y := int_of_digits (group 1 m) in
      let mo := int_of_digits (group 2 m) in
      let d := int_of_digits (group 3 m) in
      if valid_date y mo d then Some (mk_datetime y mo d) else None
    | _ :: _ => None
    end
  | None => None
  end.

(** ** The scraper's helpers *)

(** [_parse_date]: [None] is the source's [None], returned when the pattern
    is absent and by the [except] branch when [int()] raises. *)
Definition _parse_date (now : datetime) (date_text : str) : option str :=
  let current_year := dt_year now in
  match search RE_DATE date_text with
  | Some m =>
    match py_int (group 1 m) with
    | None => None
    | Some month =>
      match py_int (group 2 m) with
      | None => None
      | Some day =>
        let current_month := dt_month now in
        let year :=
          if current_month <? month then current_year - 1 else current_year in
        Some (format_d 4 year ++ [c_hyphen] ++ format_d 2 month
                ++ [c_hyphen] ++ format_d 2 day)
      end
    end
  | None => None
  end.

(** [_extract_delay_minutes]: [None] is the [ValueError] of [int()] at line
    149, which nothing in the function catches. *)
Definition _extract_delay_minutes (delay_info : str) : option Z :=
  if str_eqb delay_info [] || str_eqb delay_info DASH
     || str_eqb (strip delay_info) []
  then Some 0
  else if str_in OVER_61 delay_info || str_in OVER_60 delay_info then Some 61
  else match search RE_DELAY delay_info with
  | Some m => py_int (group 1 m)
  | None => if str_in CHIEN delay_info then Some 5 else Some 0
  end.

(** [l[i]] on a Python list: negative indexes count from the end; [None]
    stands for [IndexError]. *)
Definition py_index {A : Type} (l : list A) (i : Z) : option A :=
  let n := Z.of_nat (length l) in
  if (0 <=? i) && (i <? n) then l !! Z.to_nat i
  else if (- n <=? i) && (i <? 0) then l !! Z.to_nat (n + i)
  else None.

(** The lookup table of [_get_japanese_weekday]. *)
Definition weekdays : list str :=
  Eval vm_compute in
    [py "月"; py "火"; py "水"; py "木"; py "金"; py "土"; py "日"].

(** [_get_japanese_weekday] *)
Definition _get_japanese_weekday (weekday : Z) : option str :=
  py_index weekdays weekday.

(** [date_obj.strftime('%A')] in the C locale. *)
Definition strftime_A (dt : datetime) : str :=
  default []
    (map py ["Monday"; "Tuesday"; "Wednesday"; "Thursday"; "Friday";
             "Saturday"; "Sunday"]%string !! Z.to_nat (weekday dt)).

(** ** Records *)

(** The dict appended by [get_delay_history_data] (lines 94-100). *)
Record delay_record : Type := mk_delay_record {
  date : str;
  time_slot : str;
  delay_info : str;
  delay_minutes : Z;
  has_delay : bool
}.

(** The same dict after the weekday loop of [scrape_delay_history]:
    [weekday_en] is the key ['weekday'], [weekday_jp] the key
    ['weekday_jp']. *)
Record weekday_record : Type := mk_weekday_record {
  data : delay_record;
  weekday_en : str;
  weekday_jp : str
}.

(** A row of the [DataFrame] that [scrape_delay_history] returns: the dict
    it was built from, and the values that lines 183-184 put in its ['date']
    and ['delay_minutes'] columns. *)
Record frame_row (Timestamp : Type) : Type := mk_frame_row {
  row_dict : weekday_record;
  row_date : Timestamp;
  row_delay_minutes : Z
}.
Arguments mk_frame_row {Timestamp} _ _ _.
Arguments row_dict {Timestamp} _.
Arguments row_date {Timestamp} _.
Arguments row_delay_minutes {Timestamp} _.

(** The dict literal of lines 94-100. *)
Definition make_record (parsed_date time_slot delay_info : str)
    (delay_minutes : Z) : delay_record :=
  {| date := parsed_date;
     time_slot := time_slot;
     delay_info := delay_info;
     delay_minutes := delay_minutes;
     has_delay := 0 <? delay_minutes |}.

(** The body of the slot loop (lines 89-100): the record of one cell text,
    or the exception of [_extract_delay_minutes]. *)
Definition cell_record (parsed_date time_slot delay_info : str)
  : option delay_record :=
  match _extract_delay_minutes delay_info with
  | Some delay_minutes =>
    Some (make_record parsed_date time_slot delay_info delay_minutes)
  | None => None
  end.

(** A loop whose body may raise, run over a list: what all turns append, or
    the exception of the first turn that raises. *)
Fixpoint collect {A B : Type} (body : A -> option (list B)) (l : list A)
  : option (list B) :=
  match l with
  | [] => Some []
  | x :: l' =>
    match body x with
    | None => None
    | Some ys =>
      match collect body l' with
      | None => None
      | Some zs => Some (ys ++ zs)
      end
    end
  end.

(** The rows of a frame, from its dicts and the two converted columns. *)
Fixpoint frame_rows {Timestamp : Type} (all_data : list weekday_record)
    (dates : list Timestamp) (minutes : list Z) : list (frame_row Timestamp) :=
  match all_data, dates, minutes with
  | w :: all_data', t :: dates', m :: minutes' =>
    mk_frame_row w t m :: frame_rows all_data' dates' minutes'
  | _, _, _ => []
  end.

(** The body of the weekday loop (lines 170-177), with its [except]. *)
Definition add_weekday (d : delay_record) : weekday_record :=
  let unknown :=
    {| data := d; weekday_en := py "Unknown"; weekday_jp := FUMEI |} in
  match strptime_ymd (date d) with
  | Some date_obj =>
    match _get_japanese_weekday (weekday date_obj) with
    | Some jp =>
      {| data := d; weekday_en := strftime_A date_obj; weekday_jp := jp |}
    | None => unknown
    end
  | None => unknown
  end.

(** The outcome of [session.get] and [raise_for_status]. *)
Inductive response (Tag : Type) : Type :=
| RequestFailed
| Page (soup : Tag).
Arguments RequestFailed {Tag}.
Arguments Page {Tag} soup.

(** ** The record assembler *)

Module Scraper.
Section Assembler.

(** The parse tree is BeautifulSoup's: [Tag] is the type of its elements,
    whose equality is the one [==] tests, [find_all names t] lists the
    descendants of [t] named in [names], and [get_text t] is
    [t.get_text(strip=True)]. *)
Context {Tag : Type} `{EqDecision Tag}.
Context (find_all : list str -> Tag -> list Tag) (get_text : Tag -> str).

(** The test of the header search (lines 50-52). *)
Definition is_header_row (row : Tag) : bool :=
  let cells := find_all [py "th"; py "td"] row in
  let header_text := concat (map get_text cells) in
  str_in SHIHATSU header_text && str_in SHUDEN header_text.

(** The header search (lines 48-54): the first row that passes, if any. *)
Definition find_header_row (rows : list Tag) : option Tag :=
  List.find is_header_row rows.

(** The test of line 64. *)
Definition is_time_slot (time_slot : str) : bool :=
  negb (str_eqb time_slot [])
  && (str_in JI time_slot || str_in SHIHATSU time_slot
      || str_in SHUDEN time_slot).

(** The slot labels of a header row (lines 60-65). *)
Definition header_time_slots (header_row : Tag) : list str :=
  let header_cells := find_all [py "th"; py "td"] header_row in
  List.filter is_time_slot (map get_text (drop 1 header_cells)).

(** The loop over [enumerate(time_slots)] from index [i] on (lines 86-100):
    [cells !! (i + 1)] is defined exactly when [i + 1 < len(cells)]. *)
Fixpoint slot_records (parsed_date : str) (cells : list Tag) (i : nat)
    (time_slots : list str) : option (list delay_record) :=
  match time_slots with
  | [] => Some []
  | time_slot :: later =>
    match cells !! (i + 1)%nat with
    | Some delay_cell =>
      match cell_record parsed_date time_slot (get_text delay_cell) with
      | None => None
      | Some record =>
        match slot_records parsed_date cells (S i) later with
        | None => None
        | Some records => Some (record :: records)
        end
      end
    | None => slot_records parsed_date cells (S i) later
    end
  end.

(** One turn of the data-row loop (lines 68-100): the records a row adds,
    or the exception it raises. *)
Definition row_records (now : datetime) (header_row : Tag)
    (time_slots : list str) (row : Tag) : option (list delay_record) :=
  if decide (row = header_row) then Some []
  else
    let cells := find_all [py "td"; py "th"] row in
    if (length cells <? 2)%nat then Some []
    else match cells !! 0%nat with
    | None => Some []
    | Some date_cell =>
      let date_text := get_text date_cell in
      match _parse_date now date_text with
      | None => Some []
      | Some parsed_date =>
        if str_eqb parsed_date [] then Some []
        else slot_records parsed_date cells 0 time_slots
      end
    end.

(** One turn of the table loop (lines 44-100): the records a table adds, or
    the exception it raises. *)
Definition table_records (now : datetime) (table : Tag)
  : option (list delay_record) :=
  let rows := find_all [py "tr"] table in
  match find_header_row rows with
  | None => Some []
  | Some header_row =>
    let time_slots := header_time_slots header_row in
    collect (row_records now header_row time_slots) rows
  end.

(** [get_delay_history_data]: a failed request gives the empty list (lines
    105-107), and so does any exception raised while the tables are read
    (lines 108-110). *)
Definition get_delay_history_data (now : datetime) (resp : response Tag)
  : list delay_record :=
  match resp with
  | RequestFailed => []
  | Page soup =>
    match collect (table_records now) (find_all [py "table"] soup) with
    | Some delay_data => delay_data
    | None => []
    end
  end.

(** The weekday loop of [scrape_delay_history] (lines 169-177): [all_data]
    when the loop ends. *)
Definition weekday_loop (all_data : list delay_record) : list weekday_record :=
  map add_weekday all_data.

(** The two pandas calls of lines 183-184, each giving one value for every
    row or raising ([None]): [pd.to_datetime] on the ['date'] column and
    [astype(int)] on the ['delay_minutes'] column. *)
Context {Timestamp : Type}.
Context (to_datetime : list str -> option (list Timestamp)).
Context (astype_int : list Z -> option (list Z)).

(** [scrape_delay_history] (lines 166-195): the rows of the frame it
    returns, or [None] when it raises.  The frame of line 179 has one row for
    each dict of [all_data]; when it is not empty (line 181) lines 183-184
    replace two of its columns, and nothing catches their exceptions.  Lines
    186-193 only print: the smallest and the largest date of line 189-190 are
    taken of a column [pd.to_datetime] has filled. *)
Definition scrape_delay_history (now : datetime) (resp : response Tag)
  : option (list (frame_row Timestamp)) :=
  let all_data := weekday_loop (get_delay_history_data now resp) in
  match all_data with
  | [] => Some []
  | _ :: _ =>
    match to_datetime (map (fun w => date (data w)) all_data) with
    | None => None
    | Some dates =>
      match astype_int (map (fun w => delay_minutes (data w)) all_data) with
      | None => None
      | Some minutes => Some (frame_rows all_data dates minutes)
      end
    end
  end.

End Assembler.
End Scraper.
Import Scraper.

(** ** A small parse tree to run the assembler on *)

Module Dom.

(** A document of tables of rows of [td] cells, each cell one text node. *)
Inductive elem : Type :=
| Cell (text : str)
| Row (cells : list str)
| Table (rows : list (list str))
| Soup (tables : list (list (list str))).

#[global] Instance elem_eq_dec : EqDecision elem.
Proof. solve_decision. Defined.

Definition name (e : elem) : str :=
  match e with
  | Cell _ => py "td"
  | Row _ => py "tr"
  | Table _ => py "table"
  | Soup _ => py "[document]"
  end.

Definition row_descendants (cells : list str) : list elem := map Cell cells.

Definition table_descendants (rows : list (list str)) : list elem :=
  flat_map (fun r => Row r :: row_descendants r) rows.

Definition descendants (e : elem) : list elem :=
  match e with
  | Cell _ => []
  | Row cells => row_descendants cells
  | Table rows => table_descendants rows
  | Soup tables => flat_map (fun t => Table t :: table_descendants t) tables
  end.

Definition find_all (names : list str) (e : elem) : list elem :=
  List.filter (fun d => bool_decide (name d ∈ names)) (descendants e).

Definition own_text (s : str) : list str :=
  match strip s with [] => [] | t => [t] end.

Definition get_text (e : elem) : str :=
  match e with
  | Cell s => concat (own_text s)
  | Row cells => concat (flat_map own_text cells)
  | Table rows => concat (flat_map (flat_map own_text) rows)
  | Soup tables => concat (flat_map (flat_map (flat_map own_text)) tables)
  end.

(** A [pd.to_datetime] for date strings of the form "YYYY-MM-DD": the dates
    themselves, and an exception when one of them is no calendar date. *)
Definition to_datetime (dates : list str) : option (list datetime) :=
  mapM strptime_ymd dates.

(** An [astype(int)] for numbers that fit the column. *)
Definition astype_int (minutes : list Z) : option (list Z) := Some minutes.

(** [scrape_delay_history] on a fetched document of this shape. *)
Definition scrape (now : datetime) (soup : elem)
  : option (list (frame_row datetime)) :=
  scrape_delay_history find_all get_text to_datetime astype_int now (Page soup).

End Dom.

(** ** The properties' vocabulary *)

(** [needle] occurs in [hay]. *)
Definition occurs_in (needle hay : str) : Prop :=
  exists pre post, hay = pre ++ needle ++ post.

(** The test of branch 1 (line 139). *)
Definition is_placeholder (delay_info : str) : bool :=
  str_eqb delay_info [] || str_eqb delay_info DASH
  || str_eqb (strip delay_info) [].

(** A non-empty run of decimal digits. *)
Definition digit_run (ds : str) : Prop :=
  ds <> [] /\ Forall (fun c => isdecimal c = true) ds.

(** [s] starts with "<ds>分": a digit run, then the minute unit. *)
Definition delay_at (s ds rest : str) : Prop :=
  s = ds ++ c_minute :: rest /\ digit_run ds.

(** [s] starts with "<ms>月<ds>日", each of one or two digits. *)
Definition date_at (s ms ds rest : str) : Prop :=
  s = ms ++ c_month :: ds ++ c_day :: rest
  /\ digit_run ms /\ (length ms <= 2)%nat
  /\ digit_run ds /\ (length ds <= 2)%nat.

(** "<ds>分" is the leftmost occurrence of the pattern in [text]: it starts
    where [pre] ends, and the pattern starts nowhere inside [pre]. *)
Definition first_delay (text ds : str) : Prop :=
  exists pre s rest,
    text = pre ++ s /\ delay_at s ds rest
    /\ forall p1 p2 ds' rest', pre = p1 ++ p2 -> p2 <> [] ->
         ~ delay_at (p2 ++ s) ds' rest'.

(** [text] contains the month-day pattern. *)
Definition contains_date (text : str) : Prop :=
  exists pre s ms ds rest, text = pre ++ s /\ date_at s ms ds rest.

(** "<ms>月<ds>日" is the leftmost occurrence of the pattern in [text]. *)
Definition first_date (text ms ds : str) : Prop :=
  exists pre s rest,
    text = pre ++ s /\ date_at s ms ds rest
    /\ forall p1 p2 ms' ds' rest', pre = p1 ++ p2 -> p2 <> [] ->
         ~ date_at (p2 ++ s) ms' ds' rest'.

(** The date string of line 131. *)
Definition iso_date (year month day : Z) : str :=
  format_d 4 year ++ [c_hyphen] ++ format_d 2 month ++ [c_hyphen]
  ++ format_d 2 day.

(** "Now" of the examples: 2025-07-15. *)
Definition NOW : datetime := mk_datetime 2025 7 15.

(** The two records of the end-to-end scenario. *)
Definition RECORD_EARLY : delay_record :=
  {| date := py "2025-07-03"; time_slot := py "始発〜7時";
     delay_info := py "-"; delay_minutes := 0; has_delay := false |}.

Definition RECORD_LATE : delay_record :=
  {| date := py "2025-07-03"; time_slot := py "7時〜終電";
     delay_info := py "10分"; delay_minutes := 10; has_delay := true |}.

(** The header row of the scenario, its data row, and a data row for the
    30th of February. *)
Definition HEADER_CELLS : list str := [py "日付"; py "始発〜7時"; py "7時〜終電"].
Definition JULY_3_CELLS : list str := [py "7月3日"; py "-"; py "10分"].
Definition FEB_30_CELLS : list str := [py "2月30日"; py "-"; py "10分"].

(** ** The parts of the [strptime] pattern, weekday names *)

(** [(?P<Y>\d\d\d\d)], the first group of [RE_YMD]. *)
Definition RE_YEAR : regex :=
  Group 1 (Seq (Atom CDigit) (Seq (Atom CDigit) (Seq (Atom CDigit) (Atom CDigit)))).

(** What follows it in [RE_YMD]: [-(?P<m>...)-(?P<d>...)]. *)
Definition RE_MONTH_DAY : regex :=
  let d09 := Atom CDigit in
  let r19 := Atom (CRange 0x31 0x39) in
  let lit c := Atom (CChar c) in
  Seq (lit c_hyphen)
    (Seq (Group 2
            (Alt (Seq (lit 0x31) (Atom (CRange 0x30 0x32)))
               (Alt (Seq (lit 0x30) r19) r19)))
       (Seq (lit c_hyphen)
          (Group 3
             (Alt (Seq (lit 0x33) (Atom (CRange 0x30 0x31)))
                (Alt (Seq (Atom (CRange 0x31 0x32)) d09)
                   (Alt (Seq (lit 0x30) r19)
                      (Alt r19 (Seq (lit 0x20) r19)))))))).

(** What [strptime] makes of "-<mm>-<dd>" after the year: the month and the
    day when the pattern takes the whole text. *)
Definition month_day_outcome (m d : Z) : option (Z * Z) :=
  match re_match RE_MONTH_DAY
          (c_hyphen :: format_d 2 m ++ c_hyphen :: format_d 2 d) with
  | Some p =>
    match snd (fst p) with
    | [] => Some (int_of_digits (group 2 p), int_of_digits (group 3 p))
    | _ :: _ => None
    end
  | None => None
  end.

(** The names [strftime('%A')] prints, Monday first, and the two values of
    the [except] branch of the weekday loop. *)
Definition WEEKDAY_NAMES : list str :=
  Eval vm_compute in
    map py ["Monday"; "Tuesday"; "Wednesday"; "Thursday"; "Friday";
            "Saturday"; "Sunday"]%string.

Definition UNKNOWN : str := Eval vm_compute in py "Unknown".

(** ** [save_data]: the path of the dataset file *)

(** [datetime.now()] with its time of day. *)
Record clock : Type := mk_clock {
  clock_date : datetime;
  clock_hour : Z;
  clock_minute : Z;
  clock_second : Z
}.

(** [t.strftime('%Y%m%d_%H%M%S')].  [%Y] is written with four digits, which
    is what every platform prints for the years 1000 to 9999. *)
Definition strftime_stamp (t : clock) : str :=
  format_d 4 (dt_year (clock_date t)) ++ format_d 2 (dt_month (clock_date t))
  ++ format_d 2 (dt_day (clock_date t)) ++ py "_"
  ++ format_d 2 (clock_hour t) ++ format_d 2 (clock_minute t)
  ++ format_d 2 (clock_second t).

(** [s.endswith(p)] *)
Definition endswith (p s : str) : bool := startswith (rev p) (rev s).

(** [os.path.join(a, b)] on a POSIX system ([posixpath.join]). *)
Definition path_join (a b : str) : str :=
  if startswith (py "/") b then b
  else if str_eqb a [] || endswith (py "/") a then a ++ b
  else a ++ py "/" ++ b.

Definition DATA_DIR : str := Eval vm_compute in py "data".
Definition NAME_PREFIX : str := Eval vm_compute in py "yamanote_delay_data_".
Definition NAME_SUFFIX : str := Eval vm_compute in py ".csv".

(** [save_data]: the path it writes to and returns; [None] is the default of
    the [filename] argument.  Creating the directory and writing the file are
    effects outside the model. *)
Definition save_data (now : clock) (filename : option str) : str :=
  let filename :=
    match filename with
    | None =>
      let timestamp := strftime_stamp now in
      NAME_PREFIX ++ timestamp ++ NAME_SUFFIX
    | Some f => f
    end in
  let data_dir := DATA_DIR in
  path_join data_dir filename.

(** A [datetime.now()] of the years 1000 to 9999. *)
Definition valid_clock (t : clock) : Prop :=
  1000 <= dt_year (clock_date t) <= 9999
  /\ 1 <= dt_month (clock_date t) <= 12 /\ 1 <= dt_day (clock_date t) <= 31
  /\ 0 <= clock_hour t <= 23 /\ 0 <= clock_minute t <= 59
  /\ 0 <= clock_second t <= 59.

(** A document with the scenario's table and a row that lacks its last
    cell. *)
Definition SHORT_ROW_CELLS : list str := [py "7月4日"; py "15分"].

(** ** Strings *)

Example literals_decoded :
  py "月日分-" = [c_month; c_day; c_minute; c_hyphen]
  /\ OVER_61 = [0x36; 0x31; 0x5206; 0x4ee5; 0x4e0a]
  /\ py "１０" = [0xff11; 0xff10].
Proof. vm_compute. auto. Qed.

Lemma startswith_spec (p s : str) :
  startswith p s = true <-> exists t, s = p ++ t.
Proof.
  revert s. induction p as [|a p IH]; intros s; simpl.
  - split; [intros _; by exists s | done].
  - destruct s as [|b s].
    + split; [done | intros [t Ht]; discriminate].
    + rewrite andb_true_iff, Z.eqb_eq, IH. split.
      * intros [-> [t ->]]. by exists t.
      * intros [t Ht]. injection Ht as -> ->. eauto.
Qed.

Lemma str_in_spec (needle hay : str) :
  str_in needle hay = true <-> occurs_in needle hay.
Proof.
  unfold occurs_in. induction hay as [|c hay IH]; simpl.
  - rewrite orb_false_r, startswith_spec. split.
    + intros [t Ht]. by exists [], t.
    + intros [pre [post Hp]]. destruct pre; [by exists post|discriminate].
  - rewrite orb_true_iff, startswith_spec, IH. split.
    + intros [[t Ht] | [pre [post Hp]]].
      * by exists [], t.
      * exists (c :: pre), post. by rewrite Hp.
    + intros [pre [post Hp]]. destruct pre as [|c' pre].
      * left. by exists post.
      * right. injection Hp as -> ->. eauto.
Qed.

Lemma str_eqb_true (s t : str) : str_eqb s t = true <-> s = t.
Proof. unfold str_eqb. apply bool_decide_eq_true. Qed.

Lemma str_eqb_false (s t : str) : str_eqb s t = false <-> s <> t.
Proof. unfold str_eqb. apply bool_decide_eq_false. Qed.

Lemma lstrip_keeps_ink (s : str) :
  Exists (fun c => isspace c = false) s ->
  exists c t, lstrip s = c :: t /\ isspace c = false.
Proof.
  induction 1 as [c s Hc | c s _ IH]; simpl.
  - rewrite Hc. eauto.
  - destruct (isspace c) eqn:E; eauto.
Qed.

(** A string with a character that is no whitespace does not strip to the
    empty string. *)
Lemma strip_ink (s : str) :
  Exists (fun c => isspace c = false) s -> strip s <> [].
Proof.
  intros Hs. unfold strip, rstrip.
  destruct (lstrip_keeps_ink s Hs) as (c & t & -> & Hc).
  assert (Hr : Exists (fun c => isspace c = false) (rev (c :: t))).
  { apply Exists_exists. exists c. split; [|done].
    apply list_elem_of_In, in_rev. rewrite rev_involutive. by left. }
  destruct (lstrip_keeps_ink _ Hr) as (c' & t' & -> & _).
  intros Hnil. apply (f_equal (@length _)) in Hnil.
  rewrite length_rev in Hnil. discriminate.
Qed.

Lemma strip_nil_of_spaces (s : str) :
  Forall (fun c => isspace c = true) s -> strip s = [].
Proof.
  intros Hs. unfold strip, rstrip.
  assert (Hl : forall u, Forall (fun c => isspace c = true) u -> lstrip u = []).
  { induction 1 as [|c u Hc _ IH]; simpl; [done | by rewrite Hc]. }
  by rewrite (Hl s Hs).
Qed.

(** ** Decimal digits *)

Lemma decimal_value_range (c : char) (v : Z) :
  decimal_value c = Some v -> 0 <= v <= 9.
Proof.
  unfold decimal_value.
  match goal with
  | |- context [List.find ?f ?l] => destruct (List.find f l) as [z|] eqn:E
  end; [|done].
  apply find_some in E as [_ E]. intros [= <-]. lia.
Qed.

Lemma decimal_value_ascii (d : Z) :
  0 <= d <= 9 -> decimal_value (0x30 + d) = Some d.
Proof.
  intros Hd.
  assert (d = 0 \/ d = 1 \/ d = 2 \/ d = 3 \/ d = 4 \/ d = 5 \/ d = 6
          \/ d = 7 \/ d = 8 \/ d = 9) as Hc by lia.
  repeat (destruct Hc as [-> | Hc]; [reflexivity|]). by subst.
Qed.

Lemma isdecimal_ascii (d : Z) : 0 <= d <= 9 -> isdecimal (0x30 + d) = true.
Proof. intros Hd. unfold isdecimal. by rewrite decimal_value_ascii. Qed.

Lemma fold_digits_acc (s : str) (acc : Z) :
  fold_left (fun a c => 10 * a + default 0 (decimal_value c)) s acc
  = acc * 10 ^ Z.of_nat (length s) + int_of_digits s.
Proof.
  unfold int_of_digits. revert acc.
  induction s as [|c s IH]; intros acc; simpl fold_left.
  - simpl. lia.
  - rewrite IH, (IH (10 * 0 + _)). simpl length.
    rewrite Nat2Z.inj_succ, Z.pow_succ_r by lia. lia.
Qed.

Lemma int_of_digits_cons (c : char) (s : str) :
  int_of_digits (c :: s)
  = default 0 (decimal_value c) * 10 ^ Z.of_nat (length s) + int_of_digits s.
Proof.
  unfold int_of_digits at 1. simpl fold_left. rewrite fold_digits_acc. lia.
Qed.

(** A run of [n] digits reads as a number below [10 ^ n]. *)
Lemma int_of_digits_bound (s : str) :
  Forall (fun c => isdecimal c = true) s ->
  0 <= int_of_digits s < 10 ^ Z.of_nat (length s).
Proof.
  induction 1 as [|c s Hc _ IH].
  - done.
  - rewrite int_of_digits_cons. simpl length.
    rewrite Nat2Z.inj_succ, Z.pow_succ_r by lia.
    unfold isdecimal in Hc.
    destruct (decimal_value c) as [v|] eqn:E; [|done].
    apply decimal_value_range in E. simpl. nia.
Qed.

(** The rendering loop writes digits, and they read back as the number. *)
Lemma digits_fuel_spec (f : nat) (n : Z) (acc : str) :
  0 <= n < 2 ^ Z.of_nat (S f) ->
  exists ds, digits_fuel (S f) n acc = ds ++ acc
    /\ digit_run ds /\ int_of_digits ds = n.
Proof.
  assert (Hlow : forall fuel m a, 0 <= m -> (m <? 10) = true ->
    exists ds, digits_fuel (S fuel) m a = ds ++ a
      /\ digit_run ds /\ int_of_digits ds = m).
  { intros fuel m a Hm E. apply Z.ltb_lt in E. exists [0x30 + m mod 10].
    simpl. rewrite (proj2 (Z.ltb_lt m 10)) by done.
    rewrite Z.mod_small by lia. repeat split; try done.
    - constructor; [|done]. apply isdecimal_ascii. lia.
    - rewrite int_of_digits_cons, decimal_value_ascii by lia.
      change (m * 1 + 0 = m). lia. }
  revert n acc. induction f as [|f IH]; intros n acc Hn.
  - apply Hlow; [lia|]. apply Z.ltb_lt. simpl in Hn. lia.
  - destruct (n <? 10) eqn:E; [apply Hlow; [lia|done]|].
    assert (Hstep : digits_fuel (S (S f)) n acc
                    = digits_fuel (S f) (n / 10) ((0x30 + n mod 10) :: acc)).
    { change (digits_fuel (S (S f)) n acc)
        with (if n <? 10 then (0x30 + n mod 10) :: acc
              else digits_fuel (S f) (n / 10) ((0x30 + n mod 10) :: acc)).
      by rewrite E. }
    apply Z.ltb_ge in E.
    destruct (IH (n / 10) ((0x30 + n mod 10) :: acc))
      as (ds & Hds & Hrun & Hint).
    { rewrite (Nat2Z.inj_succ (S f)), Z.pow_succ_r in Hn by lia.
      split; [apply Z.div_pos; lia|].
      apply Z.div_lt_upper_bound; lia. }
    exists (ds ++ [0x30 + n mod 10]).
    assert (Hm : 0 <= n mod 10 < 10) by (apply Z.mod_pos_bound; lia).
    repeat split.
    + rewrite Hstep, Hds. by rewrite <- app_assoc.
    + destruct ds; done.
    + destruct Hrun as [_ Hall]. apply Forall_app. split; [done|].
      constructor; [|done]. apply isdecimal_ascii. lia.
    + unfold int_of_digits. rewrite fold_left_app. simpl.
      fold (int_of_digits ds). rewrite Hint, decimal_value_ascii by lia.
      simpl. pose proof (Z.div_mod n 10). lia.
Qed.

(** [str(n)] is a digit run that [int()] reads back as [n]. *)
Lemma str_of_nonneg_spec (n : Z) :
  0 <= n -> digit_run (str_of_nonneg n) /\ int_of_digits (str_of_nonneg n) = n.
Proof.
  intros Hn. unfold str_of_nonneg.
  destruct (digits_fuel_spec (Z.to_nat (Z.log2 n)) n []) as (ds & -> & Hrun & Hint).
  - split; [done|]. destruct (Z.eq_dec n 0) as [->|Hz]; [done|].
    rewrite Nat2Z.inj_succ, Z2Nat.id by apply Z.log2_nonneg.
    apply Z.log2_spec. lia.
  - by rewrite app_nil_r.
Qed.

(** ** The matcher *)

Lemma rep_greedy_sound (a : cset) (s : str) :
  forall lo hi m rest, In (m, rest) (rep_greedy a lo hi s) ->
    s = m ++ rest /\ Forall (fun c => cset_match a c = true) m
    /\ (lo <= length m)%nat /\ (forall h, hi = Some h -> (length m <= h)%nat).
Proof.
  assert (Hstop : forall lo hi (t m rest : str),
    In (m, rest) (match lo with O => [([], t)] | S _ => [] end) ->
    t = m ++ rest /\ Forall (fun c => cset_match a c = true) m
    /\ (lo <= length m)%nat /\ (forall h, hi = Some h -> (length m <= h)%nat)).
  { intros [|lo] hi t m rest; [|intros []].
    intros [[= <- <-]|[]]. repeat split; try done. intros; simpl; lia. }
  induction s as [|c s IH]; intros lo hi m rest; simpl; [by apply Hstop|].
  destruct (cset_match a c) eqn:Ec; simpl; [|by apply Hstop].
  case_bool_decide as Eh; simpl; [by apply Hstop|].
  rewrite in_app_iff, in_map_iff.
  intros [[[m' r'] [[= <- <-] Hin]] | Hin]; [|by apply Hstop].
  apply IH in Hin as (-> & Hall & Hlo & Hhi). simpl.
  repeat split; [by constructor | lia |].
  intros h ->. specialize (Hhi (Nat.pred h) eq_refl).
  destruct h; [done | simpl in Hhi; lia].
Qed.

(** The longest run is tried first: when [ds] is a run of [a] within the
    bounds and the next character is not in [a], the first match is [ds]. *)
Lemma rep_greedy_head (a : cset) (ds t : str) :
  Forall (fun c => cset_match a c = true) ds ->
  match t with [] => True | c :: _ => cset_match a c = false end ->
  forall lo hi, (lo <= length ds)%nat ->
    (forall h, hi = Some h -> (length ds <= h)%nat) ->
    exists tl, rep_greedy a lo hi (ds ++ t) = (ds, t) :: tl.
Proof.
  intros Hds Ht. induction Hds as [|c ds Hc _ IH]; intros lo hi Hlo Hhi.
  - simpl in Hlo. assert (lo = O) as -> by lia. exists [].
    destruct t as [|c t]; simpl; [done|]. by rewrite Ht.
  - simpl. rewrite Hc. simpl.
    case_bool_decide as Eh.
    { specialize (Hhi O Eh). simpl in Hhi. lia. }
    simpl. destruct (IH (Nat.pred lo) (Nat.pred <$> hi)) as [tl ->].
    + simpl in Hlo. lia.
    + intros h Hh. destruct hi as [h'|]; [|done].
      injection Hh as <-. specialize (Hhi h' eq_refl). simpl in Hhi. lia.
    + simpl. eauto.
Qed.

Lemma run_atom_in (a : cset) (s : str) (p : partial) :
  In p (run (Atom a) s) <->
  exists c s', s = c :: s' /\ cset_match a c = true /\ p = ([c], s', []).
Proof.
  simpl. destruct s as [|c s].
  - split; [intros [] | by intros (? & ? & ? & _)].
  - destruct (cset_match a c) eqn:E.
    + split.
      * intros [<-|[]]. by exists c, s.
      * intros (c' & s' & [= <- <-] & _ & ->). by left.
    + split; [intros [] | intros (c' & s' & [= <- <-] & ? & _); congruence].
Qed.

Lemma run_seq_in (r1 r2 : regex) (s : str) (p : partial) :
  In p (run (Seq r1 r2) s) <->
  exists m1 s1 g1 m2 s2 g2, In (m1, s1, g1) (run r1 s)
    /\ In (m2, s2, g2) (run r2 s1) /\ p = (m1 ++ m2, s2, g1 ++ g2).
Proof.
  simpl. rewrite in_flat_map. split.
  - intros ([[m1 s1] g1] & H1 & H2). apply in_map_iff in H2.
    destruct H2 as ([[m2 s2] g2] & <- & H2). by exists m1, s1, g1, m2, s2, g2.
  - intros (m1 & s1 & g1 & m2 & s2 & g2 & H1 & H2 & ->).
    exists (m1, s1, g1). split; [done|]. apply in_map_iff.
    by exists (m2, s2, g2).
Qed.

Lemma run_alt_in (r1 r2 : regex) (s : str) (p : partial) :
  In p (run (Alt r1 r2) s) <-> In p (run r1 s) \/ In p (run r2 s).
Proof. simpl. apply in_app_iff. Qed.

Lemma run_rep_in (a : cset) (lo : nat) (hi : option nat) (s : str) (p : partial) :
  In p (run (Rep a lo hi) s) <->
  exists m rest, In (m, rest) (rep_greedy a lo hi s) /\ p = (m, rest, []).
Proof.
  simpl. rewrite in_map_iff. split.
  - intros ([m rest] & <- & Hin). by exists m, rest.
  - intros (m & rest & Hin & ->). by exists (m, rest).
Qed.

Lemma run_group_in (n : nat) (r : regex) (s : str) (p : partial) :
  In p (run (Group n r) s) <->
  exists m s' g, In (m, s', g) (run r s) /\ p = (m, s', g ++ [(n, m)]).
Proof.
  simpl. rewrite in_map_iff. split.
  - intros ([[m s'] g] & <- & Hin). by exists m, s', g.
  - intros (m & s' & g & Hin & ->). by exists (m, s', g).
Qed.

(** The preferred match of a sequence, of a group and of a repetition, from
    the preferred matches of the parts. *)
Lemma run_seq_head (r1 r2 : regex) (s : str) m1 s1 g1 tl1 m2 s2 g2 tl2 :
  run r1 s = (m1, s1, g1) :: tl1 -> run r2 s1 = (m2, s2, g2) :: tl2 ->
  exists tl, run (Seq r1 r2) s = (m1 ++ m2, s2, g1 ++ g2) :: tl.
Proof. intros H1 H2. simpl. rewrite H1. simpl. rewrite H2. simpl. eauto. Qed.

Lemma run_group_head (n : nat) (r : regex) (s : str) m s' g tl :
  run r s = (m, s', g) :: tl ->
  exists tl', run (Group n r) s = (m, s', g ++ [(n, m)]) :: tl'.
Proof. intros H. simpl. rewrite H. simpl. eauto. Qed.

Lemma run_rep_head (a : cset) (lo : nat) (hi : option nat) (ds t : str) :
  Forall (fun c => cset_match a c = true) ds ->
  match t with [] => True | c :: _ => cset_match a c = false end ->
  (lo <= length ds)%nat -> (forall h, hi = Some h -> (length ds <= h)%nat) ->
  exists tl, run (Rep a lo hi) (ds ++ t) = (ds, t, []) :: tl.
Proof.
  intros Hds Ht Hlo Hhi.
  destruct (rep_greedy_head a ds t Hds Ht lo hi Hlo Hhi) as [tl Htl].
  simpl. rewrite Htl. simpl. eauto.
Qed.

Lemma run_lit_head (c : char) (s : str) :
  run (Atom (CChar c)) (c :: s) = [([c], s, [])].
Proof. simpl. by rewrite Z.eqb_refl. Qed.

Lemma re_match_some_in (r : regex) (s : str) (p : partial) :
  re_match r s = Some p -> In p (run r s).
Proof. unfold re_match. destruct (run r s); [done|]. intros [= ->]. by left. Qed.

Lemma re_match_none_in (r : regex) (s : str) :
  re_match r s = None <-> forall p, ~ In p (run r s).
Proof.
  unfold re_match. destruct (run r s) as [|p l]; simpl.
  - split; [by intros _ p [] | done].
  - split; [done | intros Hn; destruct (Hn p); by left].
Qed.

(** [re.search] finds the preferred match at the leftmost start that has
    one. *)
Lemma search_some (r : regex) (s : str) (p : partial) :
  search r s = Some p <->
  exists pre t, s = pre ++ t /\ re_match r t = Some p
    /\ forall p1 p2, pre = p1 ++ p2 -> p2 <> [] -> re_match r (p2 ++ t) = None.
Proof.
  induction s as [|c s IH].
  - simpl. destruct (re_match r []) as [q|] eqn:E.
    + split.
      * intros [= <-]. exists [], []. repeat split; try done.
        intros p1 p2 Hp. by destruct p1, p2.
      * intros (pre & t & Hs & Ht & _). destruct pre, t; try done.
        congruence.
    + split; [done|]. intros (pre & t & Hs & Ht & _).
      destruct pre, t; try done. congruence.
  - simpl. destruct (re_match r (c :: s)) as [q|] eqn:E.
    + split.
      * intros [= <-]. exists [], (c :: s). repeat split; try done.
        intros p1 p2 Hp. by destruct p1, p2.
      * intros (pre & t & Hs & Ht & Hfirst). destruct pre as [|c' pre].
        { simpl in Hs. subst t. congruence. }
        specialize (Hfirst [] (c' :: pre) eq_refl ltac:(done)).
        rewrite <- Hs in Hfirst. congruence.
    + rewrite IH. split.
      * intros (pre & t & -> & Ht & Hfirst). exists (c :: pre), t.
        repeat split; try done. intros p1 p2 Hp Hne.
        destruct p1 as [|c1 p1].
        { simpl in Hp. subst p2. exact E. }
        injection Hp as <- ->. by apply (Hfirst p1).
      * intros (pre & t & Hs & Ht & Hfirst). destruct pre as [|c' pre].
        { simpl in Hs. subst t. congruence. }
        injection Hs as <- ->. exists pre, t. repeat split; try done.
        intros p1 p2 -> Hne. by apply (Hfirst (c :: p1)).
Qed.

Lemma search_none (r : regex) (s : str) :
  search r s = None <-> forall pre t, s = pre ++ t -> re_match r t = None.
Proof.
  induction s as [|c s IH].
  - simpl. destruct (re_match r []) as [q|] eqn:E.
    + split; [done|]. intros Hn. by rewrite (Hn [] []) in E.
    + split; [|done]. intros _ pre t Hs. destruct pre, t; try done.
  - simpl. destruct (re_match r (c :: s)) as [q|] eqn:E.
    + split; [done|]. intros Hn. by rewrite (Hn [] (c :: s)) in E.
    + rewrite IH. split.
      * intros Hn pre t Hs. destruct pre as [|c' pre].
        { simpl in Hs. by subst t. }
        injection Hs as <- ->. by apply (Hn pre).
      * intros Hn pre t ->. by apply (Hn (c :: pre)).
Qed.

(** ** The two patterns of the scraper *)

Lemma digit_run_length (ds : str) : digit_run ds -> (1 <= length ds)%nat.
Proof. intros [Hne _]. destruct ds; [done | simpl; lia]. Qed.

Lemma not_digit_minute : isdecimal c_minute = false.
Proof. reflexivity. Qed.

Lemma not_digit_month : isdecimal c_month = false.
Proof. reflexivity. Qed.

Lemma not_digit_day : isdecimal c_day = false.
Proof. reflexivity. Qed.

(** What a group of [\d] repetitions can capture. *)
Lemma digits_group_in (n lo : nat) (hi : option nat) (s : str) (p : partial) :
  In p (run (Group n (Rep CDigit lo hi)) s) ->
  exists ds rest, p = (ds, rest, [(n, ds)]) /\ s = ds ++ rest
    /\ Forall (fun c => isdecimal c = true) ds
    /\ (lo <= length ds)%nat /\ (forall h, hi = Some h -> (length ds <= h)%nat).
Proof.
  rewrite run_group_in. intros (m & s' & g & Hin & ->).
  apply run_rep_in in Hin as (m' & rest & Hin & [= -> -> ->]).
  apply rep_greedy_sound in Hin as (-> & Hall & Hlo & Hhi).
  by exists m', rest.
Qed.

Lemma digits_group_head (n lo : nat) (hi : option nat) (ds t : str) :
  Forall (fun c => isdecimal c = true) ds ->
  match t with [] => True | c :: _ => isdecimal c = false end ->
  (lo <= length ds)%nat -> (forall h, hi = Some h -> (length ds <= h)%nat) ->
  exists tl, run (Group n (Rep CDigit lo hi)) (ds ++ t) = (ds, t, [(n, ds)]) :: tl.
Proof.
  intros Hds Ht Hlo Hhi.
  destruct (run_rep_head CDigit lo hi ds t Hds Ht Hlo Hhi) as [tl Htl].
  destruct (run_group_head n _ _ _ _ _ _ Htl) as [tl' Htl']. eauto.
Qed.

(** Every match of [(\d+)分] at the start of [s] is a digit run and the unit. *)
Lemma delay_match_sound (s : str) (p : partial) :
  In p (run RE_DELAY s) ->
  exists ds rest, delay_at s ds rest /\ p = (ds ++ [c_minute], rest, [(1%nat, ds)]).
Proof.
  unfold RE_DELAY. rewrite run_seq_in.
  intros (m1 & s1 & g1 & m2 & s2 & g2 & H1 & H2 & ->).
  apply digits_group_in in H1 as (ds & rest & [= -> -> ->] & -> & Hall & Hlo & _).
  apply run_atom_in in H2 as (c & s' & -> & Hc & [= -> -> ->]).
  simpl in Hc. apply Z.eqb_eq in Hc as ->.
  exists ds, s'. repeat split; try done.
  intros ->. simpl in Hlo. lia.
Qed.

(** A digit run and the unit at the start of [s] is the preferred match. *)
Lemma delay_match_complete (s ds rest : str) :
  delay_at s ds rest ->
  re_match RE_DELAY s = Some (ds ++ [c_minute], rest, [(1%nat, ds)]).
Proof.
  intros [-> Hrun]. pose proof (digit_run_length ds Hrun) as Hlen.
  destruct Hrun as [_ Hall].
  destruct (digits_group_head 1 1 None ds (c_minute :: rest) Hall
              not_digit_minute Hlen ltac:(done)) as [tl1 H1].
  destruct (run_seq_head _ _ _ _ _ _ _ _ _ _ _ H1 (run_lit_head c_minute rest))
    as [tl H].
  unfold re_match, RE_DELAY. by rewrite H.
Qed.

Lemma delay_match_none (s : str) :
  re_match RE_DELAY s = None <-> forall ds rest, ~ delay_at s ds rest.
Proof.
  split.
  - intros Hn ds rest Hat. apply delay_match_complete in Hat. congruence.
  - intros Hn. apply re_match_none_in. intros p Hin.
    apply delay_match_sound in Hin as (ds & rest & Hat & _). by apply (Hn ds rest).
Qed.

(** [re.search(r'(\d+)分', text)] finds the leftmost occurrence, and its
    group 1 is the digit run of that occurrence. *)
Lemma search_delay_first (text ds : str) :
  first_delay text ds <->
  exists p, search RE_DELAY text = Some p /\ group 1 p = ds.
Proof.
  split.
  - intros (pre & s & rest & -> & Hat & Hfirst).
    exists (ds ++ [c_minute], rest, [(1%nat, ds)]). split; [|done].
    apply search_some. exists pre, s. split; [done|].
    split; [by apply delay_match_complete|].
    intros p1 p2 Hp Hne. apply delay_match_none. intros ds' rest'.
    by apply (Hfirst p1).
  - intros (p & Hs & <-). apply search_some in Hs as (pre & t & -> & Ht & Hfirst).
    apply re_match_some_in, delay_match_sound in Ht as (ds & rest & Hat & ->).
    exists pre, t, rest. split; [done|]. split; [done|].
    intros p1 p2 ds' rest' Hp Hne Hat'.
    apply delay_match_complete in Hat'. rewrite (Hfirst p1 p2 Hp Hne) in Hat'.
    done.
Qed.

(** The pattern is absent exactly when the search fails. *)
Lemma search_delay_none (text : str) :
  search RE_DELAY text = None <->
  forall pre s ds rest, text = pre ++ s -> ~ delay_at s ds rest.
Proof.
  rewrite search_none. split.
  - intros Hn pre s ds rest Hs. by apply delay_match_none, (Hn pre).
  - intros Hn pre t Hs. apply delay_match_none. intros ds rest.
    by apply (Hn pre).
Qed.

(** [int()] is only applied to digit runs in [_extract_delay_minutes]. *)
Lemma delay_group_digits (text : str) (p : partial) :
  search RE_DELAY text = Some p -> digit_run (group 1 p).
Proof.
  intros Hs.
  assert (first_delay text (group 1 p)) as (pre & s & rest & _ & [_ Hrun] & _).
  { apply search_delay_first. eauto. }
  done.
Qed.

(** Every match of [(\d{1,2})月(\d{1,2})日] at the start of [s]. *)
Lemma date_match_sound (s : str) (p : partial) :
  In p (run RE_DATE s) ->
  exists ms ds rest, date_at s ms ds rest
    /\ p = (ms ++ [c_month] ++ ds ++ [c_day], rest, [(1%nat, ms); (2%nat, ds)]).
Proof.
  unfold RE_DATE. rewrite run_seq_in.
  intros (m1 & s1 & g1 & m2 & s2 & g2 & H1 & H2 & ->).
  apply digits_group_in in H1 as (ms & r1 & [= -> -> ->] & -> & Hms & Hlo1 & Hhi1).
  apply run_seq_in in H2 as (m3 & s3 & g3 & m4 & s4 & g4 & H3 & H4 & [= -> -> ->]).
  apply run_atom_in in H3 as (c & s' & -> & Hc & [= -> -> ->]).
  simpl in Hc. apply Z.eqb_eq in Hc as ->.
  apply run_seq_in in H4 as (m5 & s5 & g5 & m6 & s6 & g6 & H5 & H6 & [= -> -> ->]).
  apply digits_group_in in H5 as (ds & r2 & [= -> -> ->] & -> & Hds & Hlo2 & Hhi2).
  apply run_atom_in in H6 as (c & s'' & -> & Hc & [= -> -> ->]).
  simpl in Hc. apply Z.eqb_eq in Hc as ->.
  exists ms, ds, s''. split; [|done].
  unfold date_at, digit_run. repeat split; try done.
  - intros ->. simpl in Hlo1. lia.
  - by apply Hhi1.
  - intros ->. simpl in Hlo2. lia.
  - by apply Hhi2.
Qed.

Lemma date_match_complete (s ms ds rest : str) :
  date_at s ms ds rest ->
  re_match RE_DATE s
  = Some (ms ++ [c_month] ++ ds ++ [c_day], rest, [(1%nat, ms); (2%nat, ds)]).
Proof.
  intros (-> & Hms & Hlms & Hds & Hlds).
  pose proof (digit_run_length ms Hms) as Hl1.
  pose proof (digit_run_length ds Hds) as Hl2.
  destruct Hms as [_ Hms]. destruct Hds as [_ Hds].
  destruct (digits_group_head 2 1 (Some 2%nat) ds (c_day :: rest) Hds
              not_digit_day Hl2) as [tl1 H1].
  { by intros h [= <-]. }
  destruct (run_seq_head _ _ _ _ _ _ _ _ _ _ _ H1 (run_lit_head c_day rest))
    as [tl2 H2].
  destruct (run_seq_head _ _ _ _ _ _ _ _ _ _ _
              (run_lit_head c_month (ds ++ c_day :: rest)) H2) as [tl3 H3].
  destruct (digits_group_head 1 1 (Some 2%nat) ms
              (c_month :: ds ++ c_day :: rest) Hms not_digit_month Hl1)
    as [tl4 H4].
  { by intros h [= <-]. }
  destruct (run_seq_head _ _ _ _ _ _ _ _ _ _ _ H4 H3) as [tl H].
  unfold re_match, RE_DATE. by rewrite H.
Qed.

Lemma date_match_none (s : str) :
  re_match RE_DATE s = None <-> forall ms ds rest, ~ date_at s ms ds rest.
Proof.
  split.
  - intros Hn ms ds rest Hat. apply date_match_complete in Hat. congruence.
  - intros Hn. apply re_match_none_in. intros p Hin.
    apply date_match_sound in Hin as (ms & ds & rest & Hat & _).
    by apply (Hn ms ds rest).
Qed.

(** [re.search] of the date pattern finds the leftmost occurrence; groups 1
    and 2 are its month and day digits. *)
Lemma search_date_first (text ms ds : str) :
  first_date text ms ds <->
  exists p, search RE_DATE text = Some p /\ group 1 p = ms /\ group 2 p = ds.
Proof.
  split.
  - intros (pre & s & rest & -> & Hat & Hfirst).
    exists (ms ++ [c_month] ++ ds ++ [c_day], rest, [(1%nat, ms); (2%nat, ds)]).
    split; [|done].
    apply search_some. exists pre, s. split; [done|].
    split; [by apply date_match_complete|].
    intros p1 p2 Hp Hne. apply date_match_none. intros ms' ds' rest'.
    by apply (Hfirst p1).
  - intros (p & Hs & <- & <-).
    apply search_some in Hs as (pre & t & -> & Ht & Hfirst).
    apply re_match_some_in, date_match_sound in Ht as (ms & ds & rest & Hat & ->).
    exists pre, t, rest. split; [done|]. split; [done|].
    intros p1 p2 ms' ds' rest' Hp Hne Hat'.
    apply date_match_complete in Hat'. rewrite (Hfirst p1 p2 Hp Hne) in Hat'.
    done.
Qed.

Lemma search_date_none (text : str) :
  search RE_DATE text = None <-> ~ contains_date text.
Proof.
  rewrite search_none. unfold contains_date. split.
  - intros Hn (pre & s & ms & ds & rest & Hs & Hat).
    apply date_match_complete in Hat. rewrite (Hn pre s Hs) in Hat. done.
  - intros Hn pre t Hs. apply date_match_none. intros ms ds rest Hat.
    apply Hn. by exists pre, t, ms, ds, rest.
Qed.

(** [int()] is only applied to runs of one or two digits in [_parse_date]. *)
Lemma date_groups_digits (text : str) (p : partial) :
  search RE_DATE text = Some p ->
  digit_run (group 1 p) /\ (length (group 1 p) <= 2)%nat
  /\ digit_run (group 2 p) /\ (length (group 2 p) <= 2)%nat.
Proof.
  intros Hs.
  assert (first_date text (group 1 p) (group 2 p))
    as (pre & s & rest & _ & (_ & H) & _); [|done].
  apply search_date_first. eauto.
Qed.

(** ** The delay interpreter *)

Lemma is_placeholder_spec (s : str) :
  is_placeholder s = true <-> s = [] \/ s = DASH \/ strip s = [].
Proof.
  unfold is_placeholder. rewrite !orb_true_iff, !str_eqb_true. tauto.
Qed.

(** A text with a character that is neither whitespace nor the dash is no
    placeholder. *)
Lemma ink_not_placeholder (s : str) (c : char) :
  In c s -> isspace c = false -> c <> c_hyphen -> is_placeholder s = false.
Proof.
  intros Hin Hsp Hc. apply not_true_iff_false. rewrite is_placeholder_spec.
  intros [-> | [-> | Hs]].
  - done.
  - destruct Hin as [Hin|[]]. by apply Hc.
  - revert Hs. apply strip_ink, Exists_exists. exists c.
    split; [by apply list_elem_of_In | done].
Qed.

Lemma extract_unfold (s : str) :
  _extract_delay_minutes s =
  if is_placeholder s then Some 0
  else if str_in OVER_61 s || str_in OVER_60 s then Some 61
  else match search RE_DELAY s with
  | Some m => py_int (group 1 m)
  | None => if str_in CHIEN s then Some 5 else Some 0
  end.
Proof. reflexivity. Qed.

Lemma str_in_false (needle hay : str) :
  str_in needle hay = false <-> ~ occurs_in needle hay.
Proof. rewrite <- str_in_spec. symmetry. apply not_true_iff_false. Qed.

(** [int()] on a text of at most 4300 characters, and on a longer one. *)
Lemma py_int_short (ds : str) :
  (length ds <= INT_MAX_STR_DIGITS)%nat -> py_int ds = Some (int_of_digits ds).
Proof.
  intros Hlen. unfold py_int. by rewrite (proj2 (Nat.leb_le _ _) Hlen).
Qed.

Lemma py_int_long (ds : str) :
  (INT_MAX_STR_DIGITS < length ds)%nat -> py_int ds = None.
Proof.
  intros Hlen. unfold py_int. by rewrite (proj2 (Nat.leb_gt _ _) Hlen).
Qed.

Lemma py_int_some (ds : str) (n : Z) :
  py_int ds = Some n ->
  n = int_of_digits ds /\ (length ds <= INT_MAX_STR_DIGITS)%nat.
Proof.
  unfold py_int. destruct (length ds <=? INT_MAX_STR_DIGITS)%nat eqn:E; [|done].
  intros [= <-]. by apply Nat.leb_le in E.
Qed.

(** A text with a "<N>分" is no placeholder. *)
Lemma first_delay_not_placeholder (text ds : str) :
  first_delay text ds -> is_placeholder text = false.
Proof.
  intros (pre & s & rest & -> & [-> _] & _).
  apply (ink_not_placeholder _ c_minute); [|done|done].
  rewrite !in_app_iff. right. right. by left.
Qed.

(** Past branches 1 and 2 the result is what [int()] makes of the digits of
    the leftmost "<N>分". *)
Lemma extract_first_delay (text ds : str) :
  ~ occurs_in OVER_61 text -> ~ occurs_in OVER_60 text ->
  first_delay text ds -> _extract_delay_minutes text = py_int ds.
Proof.
  intros H61 H60 Hfirst. rewrite extract_unfold.
  rewrite (first_delay_not_placeholder text ds Hfirst).
  apply str_in_false in H61 as ->. apply str_in_false in H60 as ->.
  apply search_delay_first in Hfirst as (p & -> & <-). done.
Qed.

(** A digit run followed by the unit holds none of the two markers. *)
Lemma minutes_text_no_marker (ds marker : str) :
  Forall (fun c => isdecimal c = true) ds ->
  In 0x4ee5 marker -> ~ occurs_in marker (ds ++ [c_minute]).
Proof.
  intros Hds Hm (pre & post & Heq).
  assert (Hin : In 0x4ee5 (ds ++ [c_minute])).
  { rewrite Heq, !in_app_iff. tauto. }
  apply in_app_iff in Hin as [Hin | [Hin | []]]; [|done].
  rewrite Forall_forall in Hds. apply list_elem_of_In, Hds in Hin. done.
Qed.

(** The whole text "<ds>分" is its own leftmost occurrence. *)
Lemma minutes_text_first (ds : str) :
  digit_run ds -> first_delay (ds ++ [c_minute]) ds.
Proof.
  intros Hrun. exists [], (ds ++ [c_minute]), []. split; [done|].
  split; [done|]. intros p1 p2 ds' rest' Hp. by destruct p1, p2.
Qed.

Lemma extract_minutes_text (ds : str) :
  digit_run ds -> _extract_delay_minutes (ds ++ [c_minute]) = py_int ds.
Proof.
  intros Hrun. apply extract_first_delay.
  - apply minutes_text_no_marker; [apply Hrun | vm_compute; tauto].
  - apply minutes_text_no_marker; [apply Hrun | vm_compute; tauto].
  - by apply minutes_text_first.
Qed.

(** A text that holds one of the two markers is decided by branch 2. *)
Lemma extract_marker (text : str) :
  occurs_in OVER_61 text \/ occurs_in OVER_60 text ->
  _extract_delay_minutes text = Some 61.
Proof.
  intros Hm. rewrite extract_unfold.
  assert (is_placeholder text = false) as ->.
  { apply (ink_not_placeholder _ c_minute); [|done|done].
    destruct Hm as [(pre & post & ->) | (pre & post & ->)];
      rewrite !in_app_iff; right; left; vm_compute; tauto. }
  assert (str_in OVER_61 text || str_in OVER_60 text = true) as ->; [|done].
  apply orb_true_iff. by rewrite !str_in_spec.
Qed.

(** The markers hold a "<N>分" themselves, so the numeric rule would apply
    too. *)
Lemma marker_has_delay (text : str) :
  occurs_in OVER_61 text \/ occurs_in OVER_60 text ->
  exists ds, first_delay text ds.
Proof.
  intros Hm. destruct (search RE_DELAY text) as [p|] eqn:E.
  - exists (group 1 p). apply search_delay_first. eauto.
  - exfalso. rewrite search_delay_none in E.
    destruct Hm as [(pre & post & ->) | (pre & post & ->)].
    + apply (E pre (OVER_61 ++ post) [0x36; 0x31] ([0x4ee5; 0x4e0a] ++ post) eq_refl).
      split; [done|]. split; [done|]. by repeat constructor.
    + apply (E pre (OVER_60 ++ post) [0x36; 0x30] ([0x4ee5; 0x4e0a] ++ post) eq_refl).
      split; [done|]. split; [done|]. by repeat constructor.
Qed.

(** The rest of the priority chain: placeholders give 0; a text past
    branches 1 to 3 gives 5 when it holds "遅延" and 0 otherwise. *)
Lemma extract_placeholder (s : str) :
  s = [] \/ s = DASH \/ Forall (fun c => isspace c = true) s ->
  _extract_delay_minutes s = Some 0.
Proof.
  intros Hs. rewrite extract_unfold.
  assert (is_placeholder s = true) as ->; [|done].
  apply is_placeholder_spec.
  destruct Hs as [-> | [-> | Hs]]; [tauto | tauto |].
  right. right. by apply strip_nil_of_spaces.
Qed.

Lemma extract_fallback (s : str) :
  is_placeholder s = false ->
  ~ occurs_in OVER_61 s -> ~ occurs_in OVER_60 s ->
  (forall pre t ds rest, s = pre ++ t -> ~ delay_at t ds rest) ->
  _extract_delay_minutes s = Some (if str_in CHIEN s then 5 else 0).
Proof.
  intros Hp H61 H60 Hnone. rewrite extract_unfold, Hp.
  apply str_in_false in H61 as ->. apply str_in_false in H60 as ->.
  apply search_delay_none in Hnone as ->. by destruct (str_in CHIEN s).
Qed.

(** The function raises exactly when the numeric rule is reached and the
    digits of the leftmost "<N>分" are more than 4300. *)
Lemma extract_raises_iff (s : str) :
  _extract_delay_minutes s = None <->
  ~ occurs_in OVER_61 s /\ ~ occurs_in OVER_60 s
  /\ exists ds, first_delay s ds /\ (INT_MAX_STR_DIGITS < length ds)%nat.
Proof.
  rewrite extract_unfold. split.
  - destruct (is_placeholder s); [done|].
    destruct (str_in OVER_61 s) eqn:E61; [done|].
    destruct (str_in OVER_60 s) eqn:E60; [done|]. simpl.
    destruct (search RE_DELAY s) as [p|] eqn:E;
      [|by destruct (str_in CHIEN s)].
    intros Hnone. split; [by apply str_in_false|].
    split; [by apply str_in_false|]. exists (group 1 p).
    split; [apply search_delay_first; eauto|].
    unfold py_int in Hnone.
    destruct (length (group 1 p) <=? INT_MAX_STR_DIGITS)%nat eqn:El; [done|].
    by apply Nat.leb_gt in El.
  - intros (H61 & H60 & ds & Hfirst & Hlen).
    rewrite (first_delay_not_placeholder s ds Hfirst).
    apply str_in_false in H61 as ->. apply str_in_false in H60 as ->. simpl.
    apply search_delay_first in Hfirst as (p & -> & <-).
    by apply py_int_long.
Qed.

Example chain_examples :
  map _extract_delay_minutes
    [py ""; py "-"; py " 　"; py "61分以上"; py "60分以上の遅れ"; py "0分";
     py "15分"; py "遅延あり"; py "平常運転"]
  = [Some 0; Some 0; Some 0; Some 61; Some 61; Some 0; Some 15; Some 5; Some 0].
Proof. by vm_compute. Qed.

(** C1 (as amended): for a text "<N>分", a digit run of at most 4300 digits
    that reads as N followed by the minute unit, the record of the cell has
    delay_minutes = N, and has_delay is true exactly when N > 0; "0分" gives
    (0, false).  With more than 4300 digits [int()] raises and there is no
    record. *)
Theorem C1_number_of_minutes (N : Z) (ds parsed_date slot : str) :
  digit_run ds -> int_of_digits ds = N ->
  ((length ds <= INT_MAX_STR_DIGITS)%nat ->
     cell_record parsed_date slot (ds ++ [c_minute])
     = Some (make_record parsed_date slot (ds ++ [c_minute]) N)
     /\ delay_minutes (make_record parsed_date slot (ds ++ [c_minute]) N) = N
     /\ (has_delay (make_record parsed_date slot (ds ++ [c_minute]) N) = true
         <-> 0 < N))
  /\ ((INT_MAX_STR_DIGITS < length ds)%nat ->
        cell_record parsed_date slot (ds ++ [c_minute]) = None).
Proof.
  intros Hrun HN. unfold cell_record. rewrite extract_minutes_text by done.
  split; intros Hlen.
  - rewrite py_int_short, HN by done. split; [done|]. split; [done|].
    apply Z.ltb_lt.
  - by rewrite py_int_long.
Qed.

Lemma C1_number_of_minutes_witness :
  ((length (py "10") <= INT_MAX_STR_DIGITS)%nat ->
     cell_record (py "2025-07-03") (py "7時〜終電") (py "10" ++ [c_minute])
     = Some (make_record (py "2025-07-03") (py "7時〜終電")
               (py "10" ++ [c_minute]) 10)
     /\ delay_minutes (make_record (py "2025-07-03") (py "7時〜終電")
                         (py "10" ++ [c_minute]) 10) = 10
     /\ (has_delay (make_record (py "2025-07-03") (py "7時〜終電")
                      (py "10" ++ [c_minute]) 10) = true
         <-> 0 < 10))
  /\ ((INT_MAX_STR_DIGITS < length (py "10"))%nat ->
        cell_record (py "2025-07-03") (py "7時〜終電") (py "10" ++ [c_minute])
        = None).
Proof.
  apply (C1_number_of_minutes 10 (py "10")).
  - split; [done|]. by repeat constructor.
  - reflexivity.
Defined.

(** C1 (as stated) fails at N = 0: the record of "0分" has has_delay = false,
    because has_delay is computed as delay_minutes > 0. *)
Lemma C1_zero_minutes_counterexample :
  cell_record (py "2025-07-03") (py "7時〜終電") (py "0分")
  = Some {| date := py "2025-07-03"; time_slot := py "7時〜終電";
            delay_info := py "0分"; delay_minutes := 0; has_delay := false |}.
Proof. by vm_compute. Qed.

(** The decimal rendering of any N >= 0 of at most 4300 digits is such a
    text. *)
Lemma rendered_minutes (N : Z) (parsed_date slot : str) :
  0 <= N -> (length (str_of_nonneg N) <= INT_MAX_STR_DIGITS)%nat ->
  cell_record parsed_date slot (str_of_nonneg N ++ [c_minute])
  = Some (make_record parsed_date slot (str_of_nonneg N ++ [c_minute]) N).
Proof.
  intros HN Hlen. destruct (str_of_nonneg_spec N HN) as [Hrun Hint].
  unfold cell_record. by rewrite extract_minutes_text, py_int_short, Hint.
Qed.

(** C6: a text that contains "61分以上" or "60分以上" is interpreted as
    (61, true); the numeric rule, which such a text also satisfies, is not
    consulted. *)
Theorem C6_over_sixty (text parsed_date slot : str) :
  occurs_in OVER_61 text \/ occurs_in OVER_60 text ->
  _extract_delay_minutes text = Some 61
  /\ cell_record parsed_date slot text
     = Some (make_record parsed_date slot text 61)
  /\ delay_minutes (make_record parsed_date slot text 61) = 61
  /\ has_delay (make_record parsed_date slot text 61) = true
  /\ exists ds, first_delay text ds.
Proof.
  intros Hm. unfold cell_record. rewrite (extract_marker text Hm).
  repeat split. by apply marker_has_delay.
Qed.

Lemma C6_over_sixty_witness :
  _extract_delay_minutes (py "5分、60分以上") = Some 61
  /\ cell_record (py "2025-07-03") (py "7時〜終電") (py "5分、60分以上")
     = Some (make_record (py "2025-07-03") (py "7時〜終電")
               (py "5分、60分以上") 61)
  /\ delay_minutes (make_record (py "2025-07-03") (py "7時〜終電")
                      (py "5分、60分以上") 61) = 61
  /\ has_delay (make_record (py "2025-07-03") (py "7時〜終電")
                  (py "5分、60分以上") 61) = true
  /\ exists ds, first_delay (py "5分、60分以上") ds.
Proof.
  apply C6_over_sixty. right. exists (py "5分、"), []. reflexivity.
Defined.

(** The numeric rule alone would read 5 from the text of the witness. *)
Example numeric_rule_shadowed :
  first_delay (py "5分、60分以上") (py "5")
  /\ _extract_delay_minutes (py "60分以上") = Some 61
  /\ first_delay (py "60分以上") (py "60").
Proof.
  split; [|split]; [| reflexivity |];
    apply search_delay_first; eexists; split; reflexivity.
Qed.

(** C10 (as amended): when neither marker occurs in the text (and so also
    when the text holds several "<N>分"), such a text is never a placeholder
    of branch 1, and the result is the number of the leftmost "<N>分" when
    its digit run has at most 4300 digits; with a longer run [int()] raises
    [ValueError], which the function does not catch. *)
Theorem C10_leftmost_number (text ds : str) :
  ~ occurs_in OVER_61 text -> ~ occurs_in OVER_60 text ->
  first_delay text ds ->
  is_placeholder text = false
  /\ ((length ds <= INT_MAX_STR_DIGITS)%nat ->
        _extract_delay_minutes text = Some (int_of_digits ds))
  /\ ((INT_MAX_STR_DIGITS < length ds)%nat ->
        _extract_delay_minutes text = None).
Proof.
  intros H61 H60 Hfirst.
  split; [by apply (first_delay_not_placeholder text ds)|].
  rewrite (extract_first_delay text ds H61 H60 Hfirst).
  split; intros Hlen; [by apply py_int_short | by apply py_int_long].
Qed.

(** The example of C10: "10分〜20分" gives 10. *)
Lemma C10_leftmost_number_witness :
  is_placeholder (py "10分〜20分") = false
  /\ ((length (py "10") <= INT_MAX_STR_DIGITS)%nat ->
        _extract_delay_minutes (py "10分〜20分") = Some (int_of_digits (py "10")))
  /\ ((INT_MAX_STR_DIGITS < length (py "10"))%nat ->
        _extract_delay_minutes (py "10分〜20分") = None).
Proof.
  apply C10_leftmost_number.
  - apply str_in_false. reflexivity.
  - apply str_in_false. reflexivity.
  - apply search_delay_first. eexists. split; reflexivity.
Defined.

(** C10 (as stated) fails for a leftmost "<N>分" of 4301 digits: the text
    "11...1分〜20分" is no placeholder and holds neither marker, and
    [_extract_delay_minutes] raises on it instead of returning a number. *)
Lemma C10_long_run_counterexample :
  is_placeholder (replicate 4301 0x31 ++ py "分〜20分") = false
  /\ ~ occurs_in OVER_61 (replicate 4301 0x31 ++ py "分〜20分")
  /\ ~ occurs_in OVER_60 (replicate 4301 0x31 ++ py "分〜20分")
  /\ first_delay (replicate 4301 0x31 ++ py "分〜20分") (replicate 4301 0x31)
  /\ _extract_delay_minutes (replicate 4301 0x31 ++ py "分〜20分") = None.
Proof.
  assert (Hfirst : first_delay (replicate 4301 0x31 ++ py "分〜20分")
                     (replicate 4301 0x31)).
  { exists [], (replicate 4301 0x31 ++ py "分〜20分"), (py "〜20分").
    split; [done|]. split.
    - split; [done|]. split; [done|]. by apply Forall_replicate.
    - intros p1 p2 ds' rest' Hp. by destruct p1, p2. }
  assert (H61 : ~ occurs_in OVER_61 (replicate 4301 0x31 ++ py "分〜20分"))
    by (apply str_in_false; by vm_compute).
  assert (H60 : ~ occurs_in OVER_60 (replicate 4301 0x31 ++ py "分〜20分"))
    by (apply str_in_false; by vm_compute).
  split; [by apply (first_delay_not_placeholder _ _ Hfirst)|].
  split; [done|]. split; [done|]. split; [done|].
  rewrite (extract_first_delay _ _ H61 H60 Hfirst).
  apply py_int_long. rewrite length_replicate. unfold INT_MAX_STR_DIGITS. lia.
Qed.

Example leftmost_number_examples :
  _extract_delay_minutes (py "10分〜20分") = Some 10
  /\ _extract_delay_minutes (py "約5分から15分") = Some 5
  /\ _extract_delay_minutes (py "１０分") = Some 10.
Proof. vm_compute. by repeat split. Qed.

(** ** The date normaliser *)

Lemma parse_date_unfold (now : datetime) (text : str) :
  _parse_date now text =
  match search RE_DATE text with
  | Some m =>
    Some (iso_date
            (if dt_month now <? int_of_digits (group 1 m)
             then dt_year now - 1 else dt_year now)
            (int_of_digits (group 1 m)) (int_of_digits (group 2 m)))
  | None => None
  end.
Proof.
  unfold _parse_date, iso_date.
  destruct (search RE_DATE text) as [p|] eqn:E; [|done].
  destruct (date_groups_digits text p E) as (_ & Hl1 & _ & Hl2).
  rewrite !py_int_short by (unfold INT_MAX_STR_DIGITS; lia). done.
Qed.

(** [int()] never raises in [_parse_date], whose groups have one or two
    digits: its [except] branch is never taken. *)
Lemma parse_date_never_raises (text : str) (p : partial) :
  search RE_DATE text = Some p ->
  py_int (group 1 p) = Some (int_of_digits (group 1 p))
  /\ py_int (group 2 p) = Some (int_of_digits (group 2 p)).
Proof.
  intros E. destruct (date_groups_digits text p E) as (_ & Hl1 & _ & Hl2).
  split; apply py_int_short; unfold INT_MAX_STR_DIGITS; lia.
Qed.

(** The result is built from the leftmost occurrence of the pattern. *)
Lemma parse_date_first (now : datetime) (text ms ds : str) :
  first_date text ms ds ->
  _parse_date now text
  = Some (iso_date
            (if dt_month now <? int_of_digits ms
             then dt_year now - 1 else dt_year now)
            (int_of_digits ms) (int_of_digits ds)).
Proof.
  intros Hfirst. rewrite parse_date_unfold.
  apply search_date_first in Hfirst as (p & -> & <- & <-). done.
Qed.

Lemma parse_date_none (now : datetime) (text : str) :
  _parse_date now text = None <-> ~ contains_date text.
Proof.
  rewrite <- search_date_none, parse_date_unfold.
  destruct (search RE_DATE text); split; done.
Qed.

(** A text that contains the pattern has a leftmost occurrence. *)
Lemma contains_date_first (text : str) :
  contains_date text -> exists ms ds, first_date text ms ds.
Proof.
  intros Hc. destruct (search RE_DATE text) as [p|] eqn:E.
  - exists (group 1 p), (group 2 p). apply search_date_first. eauto.
  - by apply search_date_none in E.
Qed.

(** One or two digits read as a number from 0 to 99. *)
Lemma short_run_bound (ds : str) :
  digit_run ds -> (length ds <= 2)%nat -> 0 <= int_of_digits ds <= 99.
Proof.
  intros [_ Hall] Hlen. pose proof (int_of_digits_bound ds Hall) as Hb.
  assert (10 ^ Z.of_nat (length ds) <= 10 ^ 2).
  { apply Z.pow_le_mono_r; lia. }
  lia.
Qed.

(** The date string is never empty, so [not parsed_date] only tests for
    [None]. *)
Lemma iso_date_not_nil (y m d : Z) : iso_date y m d <> [].
Proof.
  unfold iso_date. intros Hnil. apply (f_equal (@length _)) in Hnil.
  rewrite !length_app in Hnil. simpl in Hnil. lia.
Qed.

Lemma parse_date_not_nil (now : datetime) (text : str) :
  _parse_date now text <> Some [].
Proof.
  rewrite parse_date_unfold. destruct (search RE_DATE text); [|done].
  simpl. intros [= Hnil]. by apply iso_date_not_nil in Hnil.
Qed.

(** C4: for a text that contains the month-day pattern, the year of the
    result is the previous year when the parsed month is greater than the
    month of "now", and the current year otherwise; with "now" = 2025-07-15,
    "7月3日" gives "2025-07-03" and "12月25日" gives "2024-12-25". *)
Theorem C4_year_inference :
  (forall (now : datetime) (text : str), contains_date text ->
     exists ms ds, first_date text ms ds
       /\ _parse_date now text
          = Some (iso_date
                    (if dt_month now <? int_of_digits ms
                     then dt_year now - 1 else dt_year now)
                    (int_of_digits ms) (int_of_digits ds)))
  /\ _parse_date NOW (py "7月3日") = Some (py "2025-07-03")
  /\ _parse_date NOW (py "12月25日") = Some (py "2024-12-25").
Proof.
  split; [|by vm_compute].
  intros now text Hc. destruct (contains_date_first text Hc) as (ms & ds & Hf).
  exists ms, ds. split; [done|]. by apply parse_date_first.
Qed.

Lemma C4_year_inference_witness :
  exists ms ds, first_date (py "運休 12月25日分") ms ds
    /\ _parse_date NOW (py "運休 12月25日分")
       = Some (iso_date
                 (if dt_month NOW <? int_of_digits ms
                  then dt_year NOW - 1 else dt_year NOW)
                 (int_of_digits ms) (int_of_digits ds)).
Proof.
  apply (proj1 C4_year_inference NOW).
  exists (py "運休 "), (py "12月25日分"), (py "12"), (py "25"), (py "分").
  split; [reflexivity|]. split; [reflexivity|].
  repeat split; try done; try (by repeat constructor); simpl; lia.
Defined.

(** C5 (as stated) fails at "13月5日": the pattern takes any one or two
    digits, so month 13 is formatted like any other. *)
Lemma C5_month_13_counterexample :
  _parse_date NOW (py "13月5日") = Some (py "2024-13-05")
  /\ _parse_date NOW (py "13月5日") <> None.
Proof. by vm_compute. Qed.

(** C5 (as amended): the normaliser answers "not parseable" exactly when the
    text holds no "<1-2 digits>月<1-2 digits>日"; otherwise month and day are
    whatever numbers from 0 to 99 the leftmost occurrence spells, with no
    range or calendar check: "2月30日" gives "2025-02-30" and "13月5日" gives
    "2024-13-05" when "now" is 2025-07-15. *)
Theorem C5_no_range_check (now : datetime) (text : str) :
  (_parse_date now text = None <-> ~ contains_date text)
  /\ (forall ms ds, first_date text ms ds ->
        0 <= int_of_digits ms <= 99 /\ 0 <= int_of_digits ds <= 99
        /\ _parse_date now text
           = Some (iso_date
                     (if dt_month now <? int_of_digits ms
                      then dt_year now - 1 else dt_year now)
                     (int_of_digits ms) (int_of_digits ds)))
  /\ _parse_date NOW (py "2月30日") = Some (py "2025-02-30")
  /\ _parse_date NOW (py "13月5日") = Some (py "2024-13-05")
  /\ _parse_date NOW (py "0月99日") = Some (py "2025-00-99").
Proof.
  split; [apply parse_date_none|]. split; [|by vm_compute].
  intros ms ds Hf. pose proof Hf as (pre & s & rest & _ & Hat & _).
  destruct Hat as (_ & Hms & Hlms & Hds & Hlds).
  split; [by apply short_run_bound|]. split; [by apply short_run_bound|].
  by apply parse_date_first.
Qed.

Lemma C5_no_range_check_witness :
  0 <= int_of_digits (py "13") <= 99 /\ 0 <= int_of_digits (py "5") <= 99
  /\ _parse_date NOW (py "13月5日")
     = Some (iso_date
               (if dt_month NOW <? int_of_digits (py "13")
                then dt_year NOW - 1 else dt_year NOW)
               (int_of_digits (py "13")) (int_of_digits (py "5"))).
Proof.
  apply (proj1 (proj2 (C5_no_range_check NOW (py "13月5日")))).
  exists [], (py "13月5日"), [].
  split; [reflexivity|]. split.
  - split; [reflexivity|].
    repeat split; try done; try (by repeat constructor); simpl; lia.
  - intros p1 p2 ms' ds' rest' Hp. by destruct p1, p2.
Defined.

(** ** Weekdays *)

Lemma weekday_range (dt : datetime) : 0 <= weekday dt < 7.
Proof. unfold weekday. apply Z.mod_pos_bound. lia. Qed.

(** An index from 0 to 6 always finds one of the seven labels. *)
Lemma japanese_weekday_label (w : Z) :
  0 <= w < 7 ->
  exists label, _get_japanese_weekday w = Some label
    /\ weekdays !! Z.to_nat w = Some label /\ In label weekdays.
Proof.
  intros Hw.
  assert (w = 0 \/ w = 1 \/ w = 2 \/ w = 3 \/ w = 4 \/ w = 5 \/ w = 6)
    as Hc by lia.
  repeat (destruct Hc as [-> | Hc];
          [eexists; split; [reflexivity|]; split; [reflexivity|];
           simpl; tauto|]).
  subst w. eexists. split; [reflexivity|]. split; [reflexivity|]. simpl. tauto.
Qed.

Lemma fumei_not_weekday : ~ In FUMEI weekdays.
Proof.
  simpl. intros H. repeat (destruct H as [H|H]; [discriminate|]). done.
Qed.

Example strptime_examples :
  strptime_ymd (py "2025-07-14") = Some (mk_datetime 2025 7 14)
  /\ strptime_ymd (py "2025-02-30") = None
  /\ strptime_ymd (py "2024-13-05") = None
  /\ strptime_ymd (py "2025-00-99") = None
  /\ strptime_ymd (py "2024-02-29") = Some (mk_datetime 2024 2 29).
Proof. by vm_compute. Qed.

Example weekday_examples :
  map weekday
    [mk_datetime 2025 7 14; mk_datetime 2025 7 20; mk_datetime 2025 7 3;
     mk_datetime 2024 2 29; mk_datetime 2000 2 29; mk_datetime 1900 3 1;
     mk_datetime 1 1 1; mk_datetime 9999 12 31]
  = [0; 6; 3; 3; 1; 3; 0; 4].
Proof. by vm_compute. Qed.

(** What [strptime] accepts is a calendar date. *)
Lemma strptime_valid (s : str) (dt : datetime) :
  strptime_ymd s = Some dt ->
  valid_date (dt_year dt) (dt_month dt) (dt_day dt) = true.
Proof.
  unfold strptime_ymd. destruct (re_match RE_YMD s) as [m|]; [|done].
  destruct (snd (fst m)); [|done].
  destruct (valid_date _ _ _) eqn:E; [|done]. by intros [= <-].
Qed.

(** The weekday loop: the label is looked up by the date's weekday when the
    date string is a calendar date, and is "不明" otherwise. *)
Lemma add_weekday_spec (d : delay_record) :
  data (add_weekday d) = d
  /\ match strptime_ymd (date d) with
     | Some date_obj =>
       weekdays !! Z.to_nat (weekday date_obj)
       = Some (weekday_jp (add_weekday d))
       /\ In (weekday_jp (add_weekday d)) weekdays
     | None => weekday_jp (add_weekday d) = FUMEI
     end.
Proof.
  unfold add_weekday. destruct (strptime_ymd (date d)) as [date_obj|]; [|done].
  destruct (japanese_weekday_label (weekday date_obj) (weekday_range _))
    as (label & -> & Hl & Hin).
  done.
Qed.

(** ** Loops that may raise *)

Lemma collect_in {A B : Type} (body : A -> option (list B)) (l : list A)
    (r : list B) (y : B) :
  collect body l = Some r -> In y r ->
  exists x ys, In x l /\ body x = Some ys /\ In y ys.
Proof.
  revert r. induction l as [|x l IH]; intros r; simpl.
  - by intros [= <-] [].
  - destruct (body x) as [ys|] eqn:Ex; [|done].
    destruct (collect body l) as [zs|]; [|done].
    intros [= <-] Hin. apply in_app_iff in Hin as [Hin|Hin].
    + exists x, ys. auto.
    + destruct (IH zs eq_refl Hin) as (x' & ys' & Hx & Hb & Hy).
      exists x', ys'. auto.
Qed.

Lemma collect_app {A B : Type} (body : A -> option (list B)) (l1 l2 : list A) :
  collect body (l1 ++ l2)
  = match collect body l1 with
    | Some r1 =>
      match collect body l2 with
      | Some r2 => Some (r1 ++ r2)
      | None => None
      end
    | None => None
    end.
Proof.
  induction l1 as [|x l1 IH]; simpl.
  - by destruct (collect body l2).
  - destruct (body x) as [ys|]; [|done]. rewrite IH.
    destruct (collect body l1) as [r1|]; [|done].
    destruct (collect body l2) as [r2|]; [|done]. by rewrite app_assoc.
Qed.

(** A turn that appends nothing can be left out. *)
Lemma collect_skip {A B : Type} (body : A -> option (list B))
    (l1 l2 : list A) (x : A) :
  body x = Some [] -> collect body (l1 ++ x :: l2) = collect body (l1 ++ l2).
Proof.
  intros Hx. rewrite !collect_app. simpl. rewrite Hx.
  destruct (collect body l1); [|done]. by destruct (collect body l2).
Qed.

Lemma collect_all_nil {A B : Type} (body : A -> option (list B)) (l : list A) :
  (forall x, In x l -> body x = Some []) -> collect body l = Some [].
Proof.
  induction l as [|x l IH]; intros Hall; simpl; [done|].
  rewrite (Hall x) by (by left). rewrite IH; [done|].
  intros x' Hin. apply Hall. by right.
Qed.

(** The loop raises exactly when one of its turns does. *)
Lemma collect_none {A B : Type} (body : A -> option (list B)) (l : list A) :
  collect body l = None <-> exists x, In x l /\ body x = None.
Proof.
  induction l as [|x l IH]; simpl.
  - split; [done|]. by intros (x & [] & _).
  - destruct (body x) as [ys|] eqn:Ex.
    + destruct (collect body l) as [zs|].
      * split; [done|]. intros (x' & [<- | Hin] & Hx); [congruence|].
        assert (Hnone : Some zs = None); [|done].
        apply IH. by exists x'.
      * split; [|done]. intros _.
        destruct (proj1 IH eq_refl) as (x' & Hin & Hx). exists x'. auto.
    + split; [|done]. intros _. exists x. auto.
Qed.

(** The function returns a number that is never negative. *)
Lemma extract_nonneg (s : str) (m : Z) :
  _extract_delay_minutes s = Some m -> 0 <= m.
Proof.
  rewrite extract_unfold. destruct (is_placeholder s); [by intros [= <-]|].
  destruct (_ || _); [by intros [= <-]|].
  destruct (search RE_DELAY s) as [p|] eqn:E.
  - intros Hm. apply py_int_some in Hm as [-> _].
    apply delay_group_digits in E as [_ Hall].
    by apply int_of_digits_bound in Hall as [? _].
  - destruct (str_in CHIEN s); by intros [= <-].
Qed.

(** ** The assembler *)

Section AssemblerFacts.

Context {Tag : Type} `{EqDecision Tag}.
Context (find_all : list str -> Tag -> list Tag) (get_text : Tag -> str).

Local Abbreviation row_records := (Scraper.row_records find_all get_text).
Local Abbreviation table_records := (Scraper.table_records find_all get_text).
Local Abbreviation get_delay_history_data := (Scraper.get_delay_history_data find_all get_text).
Local Abbreviation is_header_row := (Scraper.is_header_row find_all get_text).
Local Abbreviation find_header_row := (Scraper.find_header_row find_all get_text).
Local Abbreviation header_time_slots := (Scraper.header_time_slots find_all get_text).

(** Each record of the slot loop pairs the [k]-th label with the cell at
    index [k + 1] of the row. *)
Lemma slot_records_in (parsed_date : str) (cells : list Tag)
    (time_slots : list str) (r : delay_record) :
  forall i records,
    slot_records get_text parsed_date cells i time_slots = Some records ->
    In r records ->
    exists k time_slot delay_cell delay_minutes,
      time_slots !! k = Some time_slot
      /\ cells !! (i + k + 1)%nat = Some delay_cell
      /\ _extract_delay_minutes (get_text delay_cell) = Some delay_minutes
      /\ r = make_record parsed_date time_slot (get_text delay_cell)
               delay_minutes.
Proof.
  assert (Hshift : forall i k, (i + S k + 1)%nat = (S i + k + 1)%nat) by lia.
  induction time_slots as [|time_slot later IH]; intros i records; simpl.
  { by intros [= <-] []. }
  destruct (cells !! (i + 1)%nat) as [delay_cell|] eqn:E.
  - unfold cell_record.
    destruct (_extract_delay_minutes (get_text delay_cell)) as [m|] eqn:Em;
      [|done].
    destruct (slot_records get_text parsed_date cells (S i) later)
      as [rs|] eqn:Er; [|done].
    intros [= <-] [<- | Hin].
    + exists O, time_slot, delay_cell, m. by rewrite Nat.add_0_r.
    + destruct (IH (S i) rs Er Hin) as (k & ts & dc & m' & Hk & Hc & Hm & ->).
      exists (S k), ts, dc, m'. rewrite Hshift. auto.
  - intros Hr Hin.
    destruct (IH (S i) records Hr Hin) as (k & ts & dc & m' & Hk & Hc & Hm & ->).
    exists (S k), ts, dc, m'. rewrite Hshift. auto.
Qed.

(** Every record of a row comes from a cell of that row and a date that
    [_parse_date] gave for the first cell. *)
Lemma row_records_in (now : datetime) (header_row : Tag)
    (time_slots : list str) (row : Tag) (records : list delay_record)
    (r : delay_record) :
  row_records now header_row time_slots row = Some records ->
  In r records ->
  exists date_cell parsed_date k time_slot delay_cell delay_minutes,
    row <> header_row
    /\ find_all [py "td"; py "th"] row !! 0%nat = Some date_cell
    /\ _parse_date now (get_text date_cell) = Some parsed_date
    /\ time_slots !! k = Some time_slot
    /\ find_all [py "td"; py "th"] row !! (k + 1)%nat = Some delay_cell
    /\ _extract_delay_minutes (get_text delay_cell) = Some delay_minutes
    /\ r = make_record parsed_date time_slot (get_text delay_cell)
             delay_minutes.
Proof.
  unfold Scraper.row_records. case_decide as Hrow; [by intros [= <-] []|].
  destruct (length _ <? 2)%nat; [by intros [= <-] []|].
  destruct (find_all _ row !! 0%nat) as [date_cell|] eqn:E0;
    [|by intros [= <-] []].
  destruct (_parse_date now (get_text date_cell)) as [parsed_date|] eqn:Ed;
    [|by intros [= <-] []].
  destruct (str_eqb parsed_date []); [by intros [= <-] []|].
  intros Hr Hin.
  destruct (slot_records_in _ _ _ _ _ _ Hr Hin)
    as (k & ts & dc & m & Hk & Hc & Hm & ->).
  by exists date_cell, parsed_date, k, ts, dc, m.
Qed.

(** Every record the assembler returns was built on some page, in some
    table with a header row, from some row of it. *)
Lemma assembled_record_row (now : datetime) (resp : response Tag)
    (r : delay_record) :
  In r (get_delay_history_data now resp) ->
  exists soup table header_row row records,
    resp = Page soup
    /\ In table (find_all [py "table"] soup)
    /\ find_header_row (find_all [py "tr"] table) = Some header_row
    /\ In row (find_all [py "tr"] table)
    /\ row_records now header_row (header_time_slots header_row) row
       = Some records
    /\ In r records.
Proof.
  destruct resp as [|soup]; simpl; [done|].
  destruct (collect _ (find_all [py "table"] soup)) as [delay_data|] eqn:Ec;
    [|done].
  intros Hin.
  destruct (collect_in _ _ _ _ Ec Hin) as (table & rs & Htable & Ht & Hr).
  unfold Scraper.table_records in Ht.
  destruct (find_header_row _) as [header_row|] eqn:Eh;
    [|by injection Ht as <-].
  destruct (collect_in _ _ _ _ Ht Hr) as (row & rs' & Hrow & Hrr & Hr').
  by exists soup, table, header_row, row, rs'.
Qed.

(** Every record of the assembler is the record of some cell text. *)
Lemma assembled_record_in (now : datetime) (resp : response Tag)
    (r : delay_record) :
  In r (get_delay_history_data now resp) ->
  exists parsed_date time_slot delay_info delay_minutes,
    _extract_delay_minutes delay_info = Some delay_minutes
    /\ r = make_record parsed_date time_slot delay_info delay_minutes.
Proof.
  intros Hin. apply assembled_record_row in Hin
    as (soup & table & header_row & row & rs & _ & _ & _ & _ & Hr & Hin).
  destruct (row_records_in _ _ _ _ _ _ Hr Hin)
    as (dc & pd & k & ts & c & m & _ & _ & _ & _ & _ & Hm & ->).
  by exists pd, ts, (get_text c), m.
Qed.

(** C2: for every record the assembler emits, has_delay is true if and only
    if delay_minutes > 0. *)
Theorem C2_has_delay_iff_positive (now : datetime) (resp : response Tag)
    (r : delay_record) :
  In r (get_delay_history_data now resp) ->
  (has_delay r = true <-> 0 < delay_minutes r).
Proof.
  intros Hin. apply assembled_record_in in Hin as (pd & ts & info & m & _ & ->).
  unfold make_record. simpl. apply Z.ltb_lt.
Qed.

(** The same holds after the weekday loop, which leaves both fields alone,
    and delay_minutes is never negative. *)
Lemma scraped_record_invariants (now : datetime) (resp : response Tag)
    (w : weekday_record) :
  In w (weekday_loop (get_delay_history_data now resp)) ->
  In (data w) (get_delay_history_data now resp)
  /\ (has_delay (data w) = true <-> 0 < delay_minutes (data w))
  /\ 0 <= delay_minutes (data w).
Proof.
  unfold weekday_loop. rewrite in_map_iff.
  intros (d & <- & Hin). destruct (add_weekday_spec d) as [-> _].
  split; [done|].
  apply assembled_record_in in Hin as (pd & ts & info & m & Hm & ->).
  unfold make_record. simpl.
  split; [apply Z.ltb_lt | by apply (extract_nonneg info)].
Qed.

(** C8: a row whose first cell's text fails date normalisation adds no
    record, whatever its other cells, the header row and the slot labels
    are; the records of its table are those of the other rows. *)
Theorem C8_unparseable_row_skipped (now : datetime) (row date_cell : Tag) :
  find_all [py "td"; py "th"] row !! 0%nat = Some date_cell ->
  _parse_date now (get_text date_cell) = None ->
  (forall header_row time_slots,
     row_records now header_row time_slots row = Some [])
  /\ (forall table rows1 rows2,
        find_all [py "tr"] table = rows1 ++ row :: rows2 ->
        table_records now table
        = match find_header_row (rows1 ++ row :: rows2) with
          | Some header_row =>
            collect (row_records now header_row (header_time_slots header_row))
              (rows1 ++ rows2)
          | None => Some []
          end).
Proof.
  intros Hcell Hdate.
  assert (Hrow : forall header_row time_slots,
            row_records now header_row time_slots row = Some []).
  { intros header_row time_slots. unfold Scraper.row_records.
    case_decide; [done|]. destruct (length _ <? 2)%nat; [done|].
    by rewrite Hcell, Hdate. }
  split; [done|]. intros table rows1 rows2 Hrows.
  unfold Scraper.table_records. rewrite Hrows.
  destruct (find_header_row _) as [header_row|]; [|done].
  by apply collect_skip.
Qed.

(** C9: a table none of whose rows has both "始発" and "終電" in its
    concatenated cell text adds no record. *)
Theorem C9_table_without_header_skipped (now : datetime) (table : Tag) :
  (forall row, In row (find_all [py "tr"] table) ->
     ~ (occurs_in SHIHATSU
          (concat (map get_text (find_all [py "th"; py "td"] row)))
        /\ occurs_in SHUDEN
             (concat (map get_text (find_all [py "th"; py "td"] row))))) ->
  table_records now table = Some [].
Proof.
  intros Hrows. unfold Scraper.table_records.
  destruct (find_header_row _) as [header_row|] eqn:E; [|done].
  apply find_some in E as [Hin Hhead]. exfalso. apply (Hrows _ Hin).
  unfold Scraper.is_header_row in Hhead.
  apply andb_true_iff in Hhead as [H1 H2]. by rewrite <- !str_in_spec.
Qed.

(** A page all of whose tables are such yields no record at all. *)
Lemma page_without_header (now : datetime) (soup : Tag) :
  (forall table, In table (find_all [py "table"] soup) ->
     table_records now table = Some []) ->
  get_delay_history_data now (Page soup) = [].
Proof.
  intros Htables. simpl. by rewrite collect_all_nil.
Qed.

(** C7: one table with the header row ["日付","始発〜7時","7時〜終電"] and
    the single data row ["7月3日","-","10分"], read on 2025-07-15, gives
    exactly the two records (2025-07-03, "始発〜7時", 0, false) and
    (2025-07-03, "7時〜終電", 10, true), in that order. *)
Theorem C7_end_to_end (soup table header_row row : Tag) :
  find_all [py "table"] soup = [table] ->
  find_all [py "tr"] table = [header_row; row]
  \/ find_all [py "tr"] table = [row; header_row] ->
  map get_text (find_all [py "th"; py "td"] header_row) = HEADER_CELLS ->
  map get_text (find_all [py "th"; py "td"] row) = JULY_3_CELLS ->
  map get_text (find_all [py "td"; py "th"] row) = JULY_3_CELLS ->
  get_delay_history_data NOW (Page soup) = [RECORD_EARLY; RECORD_LATE].
Proof.
  intros Htable Hrows Hh Hr1 Hr2.
  assert (Hne : row <> header_row).
  { intros ->. rewrite Hh in Hr1. vm_compute in Hr1. discriminate. }
  assert (Hhead : is_header_row header_row = true).
  { unfold Scraper.is_header_row. by rewrite Hh. }
  assert (Hnot : is_header_row row = false).
  { unfold Scraper.is_header_row. by rewrite Hr1. }
  assert (Hslots : header_time_slots header_row
                   = [py "始発〜7時"; py "7時〜終電"]).
  { unfold Scraper.header_time_slots. by rewrite <- skipn_map, Hh. }
  assert (Hself : row_records NOW header_row (header_time_slots header_row)
                    header_row = Some []).
  { unfold Scraper.row_records. by rewrite decide_True. }
  assert (Hrec : row_records NOW header_row (header_time_slots header_row) row
                 = Some [RECORD_EARLY; RECORD_LATE]).
  { unfold Scraper.row_records. rewrite decide_False by done.
    destruct (find_all [py "td"; py "th"] row) as [|c0 [|c1 [|c2 [|c3 l]]]];
      try (vm_compute in Hr2; discriminate).
    injection Hr2 as H0 H1 H2. rewrite Hslots.
    cbn [length Nat.ltb Nat.leb lookup list_lookup slot_records Nat.add].
    rewrite H0, H1, H2. reflexivity. }
  unfold Scraper.get_delay_history_data. rewrite Htable.
  cbn [collect]. unfold Scraper.table_records.
  destruct Hrows as [-> | ->]; unfold Scraper.find_header_row;
    cbn [List.find]; rewrite ?Hnot, Hhead; cbn [collect];
    by rewrite Hrec, Hself.
Qed.

End AssemblerFacts.

(** The scenario of C7 on a concrete document. *)
Lemma C7_end_to_end_witness :
  get_delay_history_data Dom.find_all Dom.get_text NOW
    (Page (Dom.Soup [[HEADER_CELLS; JULY_3_CELLS]]))
  = [RECORD_EARLY; RECORD_LATE].
Proof.
  apply (@C7_end_to_end Dom.elem Dom.elem_eq_dec Dom.find_all Dom.get_text
           (Dom.Soup [[HEADER_CELLS; JULY_3_CELLS]])
           (Dom.Table [HEADER_CELLS; JULY_3_CELLS])
           (Dom.Row HEADER_CELLS) (Dom.Row JULY_3_CELLS)).
  - reflexivity.
  - left. reflexivity.
  - reflexivity.
  - reflexivity.
  - reflexivity.
Defined.

(** C2 on the scenario of C7. *)
Lemma C2_has_delay_iff_positive_witness :
  has_delay RECORD_LATE = true <-> 0 < delay_minutes RECORD_LATE.
Proof.
  apply (@C2_has_delay_iff_positive Dom.elem Dom.elem_eq_dec Dom.find_all
           Dom.get_text NOW (Page (Dom.Soup [[HEADER_CELLS; JULY_3_CELLS]]))).
  vm_compute. tauto.
Defined.

(** C8 on a table whose second data row starts with "運休". *)
Lemma C8_unparseable_row_skipped_witness :
  (forall header_row time_slots,
     row_records Dom.find_all Dom.get_text NOW header_row time_slots
       (Dom.Row [py "運休"; py "10分"; py "20分"]) = Some [])
  /\ (forall table rows1 rows2,
        Dom.find_all [py "tr"] table
        = rows1 ++ Dom.Row [py "運休"; py "10分"; py "20分"] :: rows2 ->
        table_records Dom.find_all Dom.get_text NOW table
        = match find_header_row Dom.find_all Dom.get_text
                  (rows1 ++ Dom.Row [py "運休"; py "10分"; py "20分"] :: rows2)
          with
          | Some header_row =>
            collect
              (row_records Dom.find_all Dom.get_text NOW header_row
                 (header_time_slots Dom.find_all Dom.get_text header_row))
              (rows1 ++ rows2)
          | None => Some []
          end).
Proof.
  apply (@C8_unparseable_row_skipped Dom.elem Dom.elem_eq_dec Dom.find_all
           Dom.get_text NOW (Dom.Row [py "運休"; py "10分"; py "20分"])
           (Dom.Cell (py "運休"))).
  - reflexivity.
  - reflexivity.
Defined.

Example unparseable_row_in_table :
  get_delay_history_data Dom.find_all Dom.get_text NOW
    (Page (Dom.Soup [[HEADER_CELLS; [py "運休"; py "10分"; py "20分"];
                      JULY_3_CELLS]]))
  = [RECORD_EARLY; RECORD_LATE].
Proof. by vm_compute. Qed.

(** C9 on a layout table. *)
Lemma C9_table_without_header_skipped_witness :
  table_records Dom.find_all Dom.get_text NOW
    (Dom.Table [[py "日付"; py "始発〜7時"]; JULY_3_CELLS]) = Some [].
Proof.
  apply (@C9_table_without_header_skipped Dom.elem Dom.elem_eq_dec).
  intros row Hin [_ Hlast]. apply str_in_spec in Hlast.
  vm_compute in Hin.
  destruct Hin as [<- | [<- | []]]; vm_compute in Hlast; discriminate.
Defined.

(** * Further properties of the scraper *)

(** ** The remaining branches of the delay interpreter *)

Lemma forall_not_exists_space (s : str) :
  ~ Forall (fun c => isspace c = true) s ->
  Exists (fun c => isspace c = false) s.
Proof.
  induction s as [|c s IH]; intros Hn.
  - destruct Hn. constructor.
  - destruct (isspace c) eqn:E; [|by left]. right. apply IH.
    intros Hs. apply Hn. by constructor.
Qed.

(** [s.strip() == ""] holds exactly for the texts made of whitespace only. *)
Lemma strip_nil_iff (s : str) :
  strip s = [] <-> Forall (fun c => isspace c = true) s.
Proof.
  split; [|apply strip_nil_of_spaces].
  intros Hs.
  destruct (decide (Forall (fun c => isspace c = true) s)) as [|Hn]; [done|].
  by apply forall_not_exists_space, strip_ink in Hn.
Qed.

(** Branch 1 (line 139): the empty text, the single dash and any text made
    only of whitespace are interpreted as (0, false), without an exception,
    and these are the only texts the branch takes. *)
Theorem placeholder_no_delay (delay_info parsed_date slot : str) :
  delay_info = [] \/ delay_info = DASH
  \/ Forall (fun c => isspace c = true) delay_info ->
  is_placeholder delay_info = true
  /\ cell_record parsed_date slot delay_info
     = Some (make_record parsed_date slot delay_info 0)
  /\ delay_minutes (make_record parsed_date slot delay_info 0) = 0
  /\ has_delay (make_record parsed_date slot delay_info 0) = false.
Proof.
  intros Hs. unfold cell_record.
  rewrite (extract_placeholder delay_info Hs). split; [|done].
  apply is_placeholder_spec. rewrite strip_nil_iff. tauto.
Qed.

Lemma placeholder_no_delay_witness :
  is_placeholder [0x09; 0x20; 0x3000] = true
  /\ cell_record (py "2025-07-03") (py "7時〜終電") [0x09; 0x20; 0x3000]
     = Some (make_record (py "2025-07-03") (py "7時〜終電")
               [0x09; 0x20; 0x3000] 0)
  /\ delay_minutes
       (make_record (py "2025-07-03") (py "7時〜終電") [0x09; 0x20; 0x3000] 0)
     = 0
  /\ has_delay
       (make_record (py "2025-07-03") (py "7時〜終電") [0x09; 0x20; 0x3000] 0)
     = false.
Proof.
  apply placeholder_no_delay. right. right. by repeat constructor.
Defined.

Lemma is_placeholder_iff (s : str) :
  is_placeholder s = true
  <-> s = [] \/ s = DASH \/ Forall (fun c => isspace c = true) s.
Proof. rewrite is_placeholder_spec, strip_nil_iff. tauto. Qed.

(** A text without any "<N>分" holds neither marker. *)
Lemma no_number_no_marker (s : str) :
  (forall pre t ds rest, s = pre ++ t -> ~ delay_at t ds rest) ->
  ~ occurs_in OVER_61 s /\ ~ occurs_in OVER_60 s.
Proof.
  intros Hnone.
  assert (Hn : ~ (occurs_in OVER_61 s \/ occurs_in OVER_60 s)); [|tauto].
  intros Hm. destruct (marker_has_delay s Hm) as (ds & pre & t & rest & -> & Hat & _).
  by apply (Hnone pre t ds rest).
Qed.

(** Branches 4 and 5 (lines 151-155): a text that is no placeholder and
    holds no "<N>分" is interpreted, without an exception, as (5, true) when
    it contains "遅延" and as (0, false) otherwise. *)
Theorem no_number_fallback (delay_info parsed_date slot : str) :
  is_placeholder delay_info = false ->
  (forall pre t ds rest, delay_info = pre ++ t -> ~ delay_at t ds rest) ->
  (occurs_in CHIEN delay_info ->
     cell_record parsed_date slot delay_info
     = Some (make_record parsed_date slot delay_info 5)
     /\ delay_minutes (make_record parsed_date slot delay_info 5) = 5
     /\ has_delay (make_record parsed_date slot delay_info 5) = true)
  /\ (~ occurs_in CHIEN delay_info ->
       cell_record parsed_date slot delay_info
       = Some (make_record parsed_date slot delay_info 0)
       /\ delay_minutes (make_record parsed_date slot delay_info 0) = 0
       /\ has_delay (make_record parsed_date slot delay_info 0) = false).
Proof.
  intros Hp Hnone. destruct (no_number_no_marker _ Hnone) as [H61 H60].
  unfold cell_record.
  rewrite (extract_fallback delay_info Hp H61 H60 Hnone).
  split; intros Hc.
  - apply str_in_spec in Hc. by rewrite Hc.
  - apply str_in_false in Hc. by rewrite Hc.
Qed.

Lemma no_number_fallback_witness :
  (occurs_in CHIEN (py "遅延あり") ->
     cell_record (py "2025-07-03") (py "7時〜終電") (py "遅延あり")
     = Some (make_record (py "2025-07-03") (py "7時〜終電") (py "遅延あり") 5)
     /\ delay_minutes
          (make_record (py "2025-07-03") (py "7時〜終電") (py "遅延あり") 5) = 5
     /\ has_delay
          (make_record (py "2025-07-03") (py "7時〜終電") (py "遅延あり") 5)
        = true)
  /\ (~ occurs_in CHIEN (py "遅延あり") ->
       cell_record (py "2025-07-03") (py "7時〜終電") (py "遅延あり")
       = Some (make_record (py "2025-07-03") (py "7時〜終電") (py "遅延あり") 0)
       /\ delay_minutes
            (make_record (py "2025-07-03") (py "7時〜終電") (py "遅延あり") 0)
          = 0
       /\ has_delay
            (make_record (py "2025-07-03") (py "7時〜終電") (py "遅延あり") 0)
          = false).
Proof.
  apply no_number_fallback.
  - reflexivity.
  - apply search_delay_none. reflexivity.
Defined.

(** ** The date string and [strptime] *)

(** A check that holds on every number below [n] holds on each of them. *)
Lemma range_check (P : Z -> bool) (n : Z) :
  forallb P (seqZ 0 n) = true -> forall k, 0 <= k < n -> P k = true.
Proof.
  rewrite forallb_forall. intros H k Hk.
  apply H, list_elem_of_In, elem_of_seqZ. lia.
Qed.

(** [f"{m:02d}"] for m from 0 to 99 and [f"{y:04d}"] for y from 0 to 9999. *)
Lemma format_02d_shape (m : Z) :
  0 <= m <= 99 -> format_d 2 m = [0x30 + m / 10; 0x30 + m mod 10].
Proof.
  intros Hm. apply str_eqb_true.
  apply (range_check
           (fun k => str_eqb (format_d 2 k) [0x30 + k / 10; 0x30 + k mod 10])
           100); [by vm_compute | lia].
Qed.

Lemma format_04d_shape (y : Z) :
  0 <= y <= 9999 ->
  format_d 4 y = [0x30 + y / 1000; 0x30 + y / 100 mod 10;
                  0x30 + y / 10 mod 10; 0x30 + y mod 10].
Proof.
  intros Hy. apply str_eqb_true.
  apply (range_check
           (fun k => str_eqb (format_d 4 k)
                       [0x30 + k / 1000; 0x30 + k / 100 mod 10;
                        0x30 + k / 10 mod 10; 0x30 + k mod 10])
           10000); [by vm_compute | lia].
Qed.

Lemma iso_date_shape (y m d : Z) :
  0 <= y <= 9999 -> 0 <= m <= 99 -> 0 <= d <= 99 ->
  iso_date y m d
  = [0x30 + y / 1000; 0x30 + y / 100 mod 10; 0x30 + y / 10 mod 10;
     0x30 + y mod 10; c_hyphen; 0x30 + m / 10; 0x30 + m mod 10; c_hyphen;
     0x30 + d / 10; 0x30 + d mod 10].
Proof.
  intros Hy Hm Hd. unfold iso_date.
  by rewrite (format_04d_shape y Hy), (format_02d_shape m Hm),
    (format_02d_shape d Hd).
Qed.

(** The form of every date string [_parse_date] returns. *)
Lemma parse_date_form (now : datetime) (text s : str) :
  1 <= dt_year now <= 9999 ->
  _parse_date now text = Some s ->
  exists y m d,
    (y = dt_year now \/ y = dt_year now - 1)
    /\ 0 <= m <= 99 /\ 0 <= d <= 99
    /\ s = iso_date y m d
    /\ s = [0x30 + y / 1000; 0x30 + y / 100 mod 10; 0x30 + y / 10 mod 10;
            0x30 + y mod 10; c_hyphen; 0x30 + m / 10; 0x30 + m mod 10;
            c_hyphen; 0x30 + d / 10; 0x30 + d mod 10]
    /\ Forall (fun c => c = c_hyphen \/ 0x30 <= c <= 0x39) s.
Proof.
  intros Hy. rewrite parse_date_unfold.
  destruct (search RE_DATE text) as [p|] eqn:E; [|done]. intros [= <-].
  destruct (date_groups_digits text p E) as (H1 & Hl1 & H2 & Hl2).
  pose proof (short_run_bound _ H1 Hl1) as Hm.
  pose proof (short_run_bound _ H2 Hl2) as Hd.
  set (m := int_of_digits (group 1 p)) in *.
  set (d := int_of_digits (group 2 p)) in *.
  set (y := if dt_month now <? m then dt_year now - 1 else dt_year now).
  assert (Hyy : (y = dt_year now \/ y = dt_year now - 1) /\ 0 <= y <= 9999).
  { subst y. destruct (dt_month now <? m); lia. }
  destruct Hyy as [Hor Hyr].
  exists y, m, d. split; [done|]. split; [done|]. split; [done|].
  split; [done|]. rewrite (iso_date_shape y m d Hyr Hm Hd). split; [done|].
  assert (0 <= y / 1000 <= 9) by (Z.to_euclidean_division_equations; lia).
  assert (0 <= y / 100 mod 10 < 10) by (apply Z.mod_pos_bound; lia).
  assert (0 <= y / 10 mod 10 < 10) by (apply Z.mod_pos_bound; lia).
  assert (0 <= y mod 10 < 10) by (apply Z.mod_pos_bound; lia).
  assert (0 <= m / 10 <= 9) by (Z.to_euclidean_division_equations; lia).
  assert (0 <= m mod 10 < 10) by (apply Z.mod_pos_bound; lia).
  assert (0 <= d / 10 <= 9) by (Z.to_euclidean_division_equations; lia).
  assert (0 <= d mod 10 < 10) by (apply Z.mod_pos_bound; lia).
  repeat (constructor; [first [by left | right; lia]|]). constructor.
Qed.

(** What [_parse_date] returns, whatever the text, when "now" is a
    [datetime] (years 1 to 9999): ten characters "YYYY-MM-DD" of ASCII
    digits and hyphens, the year being this year or the one before, and
    month and day the two-digit forms of numbers from 0 to 99. *)
Theorem parse_date_shape (now : datetime) (text s : str) :
  1 <= dt_year now <= 9999 ->
  _parse_date now text = Some s ->
  exists y m d,
    (y = dt_year now \/ y = dt_year now - 1)
    /\ 0 <= m <= 99 /\ 0 <= d <= 99
    /\ s = iso_date y m d
    /\ s = [0x30 + y / 1000; 0x30 + y / 100 mod 10; 0x30 + y / 10 mod 10;
            0x30 + y mod 10; c_hyphen; 0x30 + m / 10; 0x30 + m mod 10;
            c_hyphen; 0x30 + d / 10; 0x30 + d mod 10]
    /\ Forall (fun c => c = c_hyphen \/ 0x30 <= c <= 0x39) s.
Proof. apply parse_date_form. Qed.

Lemma parse_date_shape_witness :
  exists y m d,
    (y = dt_year NOW \/ y = dt_year NOW - 1)
    /\ 0 <= m <= 99 /\ 0 <= d <= 99
    /\ py "2024-12-25" = iso_date y m d
    /\ py "2024-12-25"
       = [0x30 + y / 1000; 0x30 + y / 100 mod 10; 0x30 + y / 10 mod 10;
          0x30 + y mod 10; c_hyphen; 0x30 + m / 10; 0x30 + m mod 10;
          c_hyphen; 0x30 + d / 10; 0x30 + d mod 10]
    /\ Forall (fun c => c = c_hyphen \/ 0x30 <= c <= 0x39) (py "2024-12-25").
Proof.
  apply (parse_date_shape NOW (py "１２月２５日")).
  - simpl. lia.
  - reflexivity.
Defined.

(** The year heuristic (lines 124-129) dates a month 1 to 12 to its most
    recent occurrence that is not after the month of "now": the result lies
    in the twelve months that end with the current one, and no other year
    would. *)
Theorem year_inference_recent (now : datetime) (text ms ds : str) :
  first_date text ms ds ->
  1 <= int_of_digits ms <= 12 -> 1 <= dt_month now <= 12 ->
  exists y,
    _parse_date now text
    = Some (iso_date y (int_of_digits ms) (int_of_digits ds))
    /\ 0 <= (dt_year now * 12 + dt_month now) - (y * 12 + int_of_digits ms)
         <= 11
    /\ forall y',
         0 <= (dt_year now * 12 + dt_month now) - (y' * 12 + int_of_digits ms)
           <= 11 -> y' = y.
Proof.
  intros Hfirst Hm Hnow. rewrite (parse_date_first now text ms ds Hfirst).
  eexists. split; [reflexivity|].
  destruct (dt_month now <? int_of_digits ms) eqn:E;
    [apply Z.ltb_lt in E | apply Z.ltb_ge in E]; split; lia.
Qed.

Lemma year_inference_recent_witness :
  exists y,
    _parse_date (mk_datetime 2025 1 10) (py "12月25日")
    = Some (iso_date y (int_of_digits (py "12")) (int_of_digits (py "25")))
    /\ 0 <= (dt_year (mk_datetime 2025 1 10) * 12
             + dt_month (mk_datetime 2025 1 10))
            - (y * 12 + int_of_digits (py "12")) <= 11
    /\ forall y',
         0 <= (dt_year (mk_datetime 2025 1 10) * 12
               + dt_month (mk_datetime 2025 1 10))
              - (y' * 12 + int_of_digits (py "12")) <= 11 -> y' = y.
Proof.
  apply year_inference_recent.
  - apply search_date_first. eexists. split; [reflexivity|]. split; reflexivity.
  - vm_compute. split; discriminate.
  - simpl. lia.
Defined.

Lemma RE_YMD_parts : RE_YMD = Seq RE_YEAR RE_MONTH_DAY.
Proof. reflexivity. Qed.

(** Four decimal digits are the one way [\d\d\d\d] matches. *)
Lemma run_year (a b c d : char) (t : str) :
  isdecimal a = true -> isdecimal b = true -> isdecimal c = true ->
  isdecimal d = true ->
  run RE_YEAR (a :: b :: c :: d :: t)
  = [([a; b; c; d], t, [(1%nat, [a; b; c; d])])].
Proof.
  intros Ha Hb Hc Hd. unfold RE_YEAR.
  cbn [run cset_match flat_map map app]. rewrite Ha.
  cbn [run cset_match flat_map map app]. rewrite Hb.
  cbn [run cset_match flat_map map app]. rewrite Hc.
  cbn [run cset_match flat_map map app]. rewrite Hd.
  reflexivity.
Qed.

(** After a four-digit year, [strptime] succeeds exactly when the rest of the
    pattern takes the whole rest of the text and the fields are a calendar
    date. *)
Lemma strptime_after_year (a b c d : char) (t : str) (y : Z) :
  isdecimal a = true -> isdecimal b = true -> isdecimal c = true ->
  isdecimal d = true -> int_of_digits [a; b; c; d] = y ->
  strptime_ymd (a :: b :: c :: d :: t)
  = match re_match RE_MONTH_DAY t with
    | Some p =>
      match snd (fst p) with
      | [] =>
        if valid_date y (int_of_digits (group 2 p)) (int_of_digits (group 3 p))
        then Some (mk_datetime y (int_of_digits (group 2 p))
                     (int_of_digits (group 3 p)))
        else None
      | _ :: _ => None
      end
    | None => None
    end.
Proof.
  intros Ha Hb Hc Hd <-. unfold strptime_ymd, re_match at 1.
  rewrite RE_YMD_parts.
  change (run (Seq RE_YEAR RE_MONTH_DAY) (a :: b :: c :: d :: t))
    with (flat_map (fun p1 : partial =>
            let '(m1, s1, g1) := p1 in
            map (fun p2 : partial =>
              let '(m2, s2, g2) := p2 in (m1 ++ m2, s2, g1 ++ g2))
              (run RE_MONTH_DAY s1))
            (run RE_YEAR (a :: b :: c :: d :: t))).
  rewrite (run_year a b c d t Ha Hb Hc Hd). cbn [flat_map]. rewrite app_nil_r.
  unfold re_match. destruct (run RE_MONTH_DAY t) as [|[[m2 s2] g2] l]; [done|].
  cbn [map head fst snd]. destruct s2; [|done].
  reflexivity.
Qed.

(** The day and month part, checked on all of "-00-00" to "-99-99". *)
Lemma month_day_outcome_spec (m d : Z) :
  0 <= m <= 99 -> 0 <= d <= 99 ->
  month_day_outcome m d
  = if (1 <=? m) && (m <=? 12) && (1 <=? d) && (d <=? 31)
    then Some (m, d) else None.
Proof.
  intros Hm Hd.
  pose (ok := fun m d =>
    bool_decide (month_day_outcome m d
                 = if (1 <=? m) && (m <=? 12) && (1 <=? d) && (d <=? 31)
                   then Some (m, d) else None)).
  assert (Hall : forallb (fun m => forallb (ok m) (seqZ 0 100)) (seqZ 0 100)
                 = true) by (by vm_compute).
  pose proof (range_check _ _ Hall m ltac:(lia)) as Hrow.
  pose proof (range_check _ _ Hrow d ltac:(lia)) as Hok.
  by apply bool_decide_eq_true in Hok.
Qed.

Lemma days_in_month_le_31 (y m : Z) : 1 <= m <= 12 -> _days_in_month y m <= 31.
Proof.
  intros Hm. unfold _days_in_month.
  assert (m = 1 \/ m = 2 \/ m = 3 \/ m = 4 \/ m = 5 \/ m = 6 \/ m = 7
          \/ m = 8 \/ m = 9 \/ m = 10 \/ m = 11 \/ m = 12) as Hc by lia.
  repeat (destruct Hc as [-> | Hc]; [destruct (_is_leap y); simpl; lia|]).
  subst m. destruct (_is_leap y); simpl; lia.
Qed.

Lemma valid_date_ranges (y m d : Z) :
  valid_date y m d = true -> 1 <= m <= 12 /\ 1 <= d <= 31.
Proof.
  unfold valid_date. rewrite !andb_true_iff, !Z.leb_le.
  intros [[[[[_ _] ?] ?] ?] Hd].
  pose proof (days_in_month_le_31 y m ltac:(lia)). lia.
Qed.

Lemma int_of_four_digits (y : Z) :
  0 <= y <= 9999 ->
  int_of_digits [0x30 + y / 1000; 0x30 + y / 100 mod 10;
                 0x30 + y / 10 mod 10; 0x30 + y mod 10] = y.
Proof.
  intros Hy. apply Z.eqb_eq.
  apply (range_check
           (fun k => int_of_digits [0x30 + k / 1000; 0x30 + k / 100 mod 10;
                                    0x30 + k / 10 mod 10; 0x30 + k mod 10]
                     =? k) 10000); [by vm_compute | lia].
Qed.

(** [strptime] on the date strings of line 131. *)
Lemma strptime_of_iso_date (y m d : Z) :
  0 <= y <= 9999 -> 0 <= m <= 99 -> 0 <= d <= 99 ->
  strptime_ymd (iso_date y m d)
  = if valid_date y m d then Some (mk_datetime y m d) else None.
Proof.
  intros Hy Hm Hd.
  assert (0 <= y / 1000 <= 9) by (Z.to_euclidean_division_equations; lia).
  assert (0 <= y / 100 mod 10 <= 9) by (Z.to_euclidean_division_equations; lia).
  assert (0 <= y / 10 mod 10 <= 9) by (Z.to_euclidean_division_equations; lia).
  assert (0 <= y mod 10 <= 9) by (Z.to_euclidean_division_equations; lia).
  unfold iso_date. rewrite (format_04d_shape y Hy).
  change ([0x30 + y / 1000; 0x30 + y / 100 mod 10; 0x30 + y / 10 mod 10;
           0x30 + y mod 10] ++ [c_hyphen] ++ format_d 2 m ++ [c_hyphen]
          ++ format_d 2 d)
    with (0x30 + y / 1000 :: 0x30 + y / 100 mod 10 :: 0x30 + y / 10 mod 10
          :: 0x30 + y mod 10
          :: (c_hyphen :: format_d 2 m ++ c_hyphen :: format_d 2 d)).
  rewrite (strptime_after_year _ _ _ _ _ y)
    by first [by apply isdecimal_ascii | by apply int_of_four_digits].
  pose proof (month_day_outcome_spec m d Hm Hd) as Hmd.
  unfold month_day_outcome in Hmd.
  destruct (re_match RE_MONTH_DAY _) as [p|].
  - destruct (snd (fst p)).
    + destruct ((1 <=? m) && (m <=? 12) && (1 <=? d) && (d <=? 31));
        [|done]. by injection Hmd as -> ->.
    + destruct (valid_date y m d) eqn:Ev; [|done].
      apply valid_date_ranges in Ev.
      destruct ((1 <=? m) && (m <=? 12) && (1 <=? d) && (d <=? 31)) eqn:Er;
        [done|].
      rewrite !andb_false_iff, !Z.leb_gt in Er. lia.
  - destruct (valid_date y m d) eqn:Ev; [|done].
    apply valid_date_ranges in Ev.
    destruct ((1 <=? m) && (m <=? 12) && (1 <=? d) && (d <=? 31)) eqn:Er;
      [done|].
    rewrite !andb_false_iff, !Z.leb_gt in Er. lia.
Qed.

(** Round trip of line 131 and line 172: [strptime] reads the date string of
    year 0-9999, month 0-99 and day 0-99 back as the same year, month and
    day when they are a calendar date, and raises otherwise. *)
Theorem strptime_iso_date (y m d : Z) :
  0 <= y <= 9999 -> 0 <= m <= 99 -> 0 <= d <= 99 ->
  strptime_ymd (iso_date y m d)
  = if valid_date y m d then Some (mk_datetime y m d) else None.
Proof. apply strptime_of_iso_date. Qed.

Lemma strptime_iso_date_witness :
  strptime_ymd (iso_date 2024 2 29)
  = if valid_date 2024 2 29 then Some (mk_datetime 2024 2 29) else None.
Proof. apply strptime_iso_date; lia. Defined.

(** ** Where the records come from *)

Section AssemblerProvenance.

Context {Tag : Type} `{EqDecision Tag}.
Context (find_all : list str -> Tag -> list Tag) (get_text : Tag -> str).

Local Abbreviation row_records := (Scraper.row_records find_all get_text).
Local Abbreviation table_records := (Scraper.table_records find_all get_text).
Local Abbreviation get_delay_history_data :=
  (Scraper.get_delay_history_data find_all get_text).
Local Abbreviation find_header_row := (Scraper.find_header_row find_all get_text).
Local Abbreviation header_time_slots :=
  (Scraper.header_time_slots find_all get_text).

(** The slot loop with its bounds test runs over the labels zipped with the
    cells after index [i], and raises when one of these cells does. *)
Lemma slot_records_zip (parsed_date : str) (cells : list Tag)
    (time_slots : list str) :
  forall i,
    slot_records get_text parsed_date cells i time_slots
    = mapM (fun p => cell_record parsed_date p.1 (get_text p.2))
        (zip time_slots (drop (S i) cells)).
Proof.
  induction time_slots as [|time_slot later IH]; intros i; [done|].
  cbn [slot_records]. replace (i + 1)%nat with (S i) by lia.
  destruct (cells !! S i) as [delay_cell|] eqn:E.
  - rewrite (drop_S cells delay_cell (S i) E), IH. simpl.
    destruct (cell_record parsed_date time_slot (get_text delay_cell));
      [|done].
    simpl. by destruct (mapM _ _).
  - rewrite IH. apply lookup_ge_None in E.
    rewrite !drop_ge by lia. by destruct later.
Qed.

(** The slot loop raises exactly when a label has a cell whose text
    [_extract_delay_minutes] raises on. *)
Lemma slot_records_none (parsed_date : str) (cells : list Tag)
    (time_slots : list str) :
  forall i,
    slot_records get_text parsed_date cells i time_slots = None
    <-> exists k time_slot delay_cell,
          time_slots !! k = Some time_slot
          /\ cells !! (i + k + 1)%nat = Some delay_cell
          /\ _extract_delay_minutes (get_text delay_cell) = None.
Proof.
  assert (Hshift : forall i k, (i + S k + 1)%nat = (S i + k + 1)%nat) by lia.
  induction time_slots as [|time_slot later IH]; intros i; cbn [slot_records].
  { split; [done|]. by intros (k & ts & dc & Hk & _). }
  destruct (cells !! (i + 1)%nat) as [delay_cell|] eqn:E.
  - unfold cell_record.
    destruct (_extract_delay_minutes (get_text delay_cell)) as [m|] eqn:Em.
    + destruct (slot_records get_text parsed_date cells (S i) later)
        as [rs|] eqn:Er.
      * split; [done|]. intros (k & ts & dc & Hk & Hc & Hn).
        destruct k as [|k].
        -- rewrite Nat.add_0_r in Hc. congruence.
        -- assert (Hnone : slot_records get_text parsed_date cells (S i) later
                           = None); [|congruence].
           apply IH. exists k, ts, dc. by rewrite <- Hshift.
      * split; [|done]. intros _. apply IH in Er as (k & ts & dc & ? & ? & ?).
        exists (S k), ts, dc. by rewrite Hshift.
    + split; [|done]. intros _. exists O, time_slot, delay_cell.
      by rewrite Nat.add_0_r.
  - rewrite IH. split.
    + intros (k & ts & dc & ? & ? & ?). exists (S k), ts, dc.
      by rewrite Hshift.
    + intros (k & ts & dc & Hk & Hc & Hn). destruct k as [|k].
      * rewrite Nat.add_0_r in Hc. congruence.
      * exists k, ts, dc. by rewrite <- Hshift.
Qed.

(** A data row whose first cell gives a date (lines 68-100).  The slot
    labels are paired in order with the cells after the first; labels
    without a cell and cells without a label are left out.  When
    [_extract_delay_minutes] returns on every paired cell the row adds one
    record for each pair, in order and with the row's date; when it raises
    on one of them (a run of more than 4300 digits before "分") the row
    raises and adds nothing. *)
Theorem data_row_records (now : datetime) (header_row row date_cell : Tag)
    (delay_cells : list Tag) (time_slots : list str) (parsed_date : str) :
  row <> header_row ->
  find_all [py "td"; py "th"] row = date_cell :: delay_cells ->
  delay_cells <> [] ->
  _parse_date now (get_text date_cell) = Some parsed_date ->
  row_records now header_row time_slots row
  = mapM (fun p => cell_record parsed_date p.1 (get_text p.2))
      (zip time_slots delay_cells)
  /\ (forall records,
        row_records now header_row time_slots row = Some records
        <-> Forall2
              (fun p record =>
                 exists delay_minutes,
                   _extract_delay_minutes (get_text p.2) = Some delay_minutes
                   /\ record = make_record parsed_date p.1 (get_text p.2)
                                 delay_minutes)
              (zip time_slots delay_cells) records)
  /\ (forall records,
        row_records now header_row time_slots row = Some records ->
        length records = Nat.min (length time_slots) (length delay_cells))
  /\ (row_records now header_row time_slots row = None
      <-> exists k time_slot delay_cell,
            time_slots !! k = Some time_slot
            /\ delay_cells !! k = Some delay_cell
            /\ _extract_delay_minutes (get_text delay_cell) = None).
Proof.
  intros Hrow Hcells Hne Hdate.
  assert (Hslots : row_records now header_row time_slots row
                   = slot_records get_text parsed_date
                       (date_cell :: delay_cells) 0 time_slots).
  { unfold Scraper.row_records. rewrite decide_False by done. rewrite Hcells.
    destruct delay_cells as [|c1 rest]; [done|].
    cbn [length Nat.ltb Nat.leb lookup list_lookup]. rewrite Hdate.
    assert (str_eqb parsed_date [] = false) as ->; [|done].
    apply str_eqb_false. intros ->. by apply parse_date_not_nil in Hdate. }
  assert (Heq : row_records now header_row time_slots row
                = mapM (fun p => cell_record parsed_date p.1 (get_text p.2))
                    (zip time_slots delay_cells)).
  { by rewrite Hslots, slot_records_zip. }
  assert (Hall : forall records,
            row_records now header_row time_slots row = Some records
            <-> Forall2
                  (fun p record =>
                     exists delay_minutes,
                       _extract_delay_minutes (get_text p.2)
                       = Some delay_minutes
                       /\ record = make_record parsed_date p.1 (get_text p.2)
                                     delay_minutes)
                  (zip time_slots delay_cells) records).
  { intros records. rewrite Heq, mapM_Some.
    split; intros HF; apply (Forall2_impl _ _ _ _ HF); intros p r;
      unfold cell_record.
    - destruct (_extract_delay_minutes (get_text p.2)) as [m|]; [|done].
      intros [= <-]. by exists m.
    - by intros (m & -> & ->). }
  split; [done|]. split; [done|]. split.
  - intros records Hr. apply Hall, Forall2_length in Hr.
    by rewrite <- Hr, length_zip_with.
  - rewrite Hslots, slot_records_none.
    split; intros (k & ts & dc & Hk & Hc & Hn); exists k, ts, dc;
      (split; [done|]); (split; [|done]).
    + by replace (0 + k + 1)%nat with (S k) in Hc by lia.
    + by replace (0 + k + 1)%nat with (S k) by lia.
Qed.

(** A row raises exactly when it is not the header row, its first cell
    gives a date, and a cell with a label holds a text
    [_extract_delay_minutes] raises on. *)
Lemma row_records_none (now : datetime) (header_row row : Tag)
    (time_slots : list str) :
  row_records now header_row time_slots row = None
  <-> row <> header_row
      /\ exists date_cell parsed_date k time_slot delay_cell,
           find_all [py "td"; py "th"] row !! 0%nat = Some date_cell
           /\ _parse_date now (get_text date_cell) = Some parsed_date
           /\ time_slots !! k = Some time_slot
           /\ find_all [py "td"; py "th"] row !! (k + 1)%nat
              = Some delay_cell
           /\ _extract_delay_minutes (get_text delay_cell) = None.
Proof.
  unfold Scraper.row_records.
  destruct (decide (row = header_row)) as [Heq|Hne].
  { split; [done|]. by intros [? _]. }
  destruct (find_all [py "td"; py "th"] row) as [|dc [|c1 rest]] eqn:Ec.
  - simpl. split; [done|]. by intros (_ & dc & pd & k & ts & c & H0 & _).
  - simpl. split; [done|].
    intros (_ & dc' & pd & k & ts & c & _ & _ & _ & Hc & _).
    rewrite Nat.add_1_r in Hc. done.
  - cbn [length Nat.ltb Nat.leb lookup list_lookup].
    destruct (_parse_date now (get_text dc)) as [pd|] eqn:Ed.
    + assert (str_eqb pd [] = false) as ->.
      { apply str_eqb_false. intros ->. by apply parse_date_not_nil in Ed. }
      rewrite slot_records_none. split.
      * intros (k & ts & c & Hk & Hc & Hn). split; [done|].
        by exists dc, pd, k, ts, c.
      * intros (_ & dc' & pd' & k & ts & c & [= <-] & Hd & Hk & Hc & Hn).
        exists k, ts, c. by split.
    + split; [done|].
      intros (_ & dc' & pd' & k & ts & c & [= <-] & Hd & _). congruence.
Qed.

(** A row adds no record and lets the loop go on (lines 68-100) in exactly
    four cases: it is the header row, it has fewer than two cells, its first
    cell gives no date, or the header row had no accepted label.  It raises,
    and so adds nothing either, exactly when it is another row whose first
    cell gives a date and one of whose cells with a label holds a text
    [_extract_delay_minutes] raises on. *)
Theorem row_skipped_iff (now : datetime) (header_row row : Tag)
    (time_slots : list str) :
  (row_records now header_row time_slots row = Some []
   <-> row = header_row
       \/ (length (find_all [py "td"; py "th"] row) < 2)%nat
       \/ (exists date_cell,
             find_all [py "td"; py "th"] row !! 0%nat = Some date_cell
             /\ _parse_date now (get_text date_cell) = None)
       \/ time_slots = [])
  /\ (row_records now header_row time_slots row = None
      <-> row <> header_row
          /\ exists date_cell parsed_date k time_slot delay_cell,
               find_all [py "td"; py "th"] row !! 0%nat = Some date_cell
               /\ _parse_date now (get_text date_cell) = Some parsed_date
               /\ time_slots !! k = Some time_slot
               /\ find_all [py "td"; py "th"] row !! (k + 1)%nat
                  = Some delay_cell
               /\ _extract_delay_minutes (get_text delay_cell) = None).
Proof.
  split; [|apply row_records_none].
  unfold Scraper.row_records.
  destruct (decide (row = header_row)) as [Heq|Hne]; [tauto|].
  destruct (find_all [py "td"; py "th"] row) as [|dc [|c1 rest]] eqn:Ec.
  - simpl. split; [intros _|done]. right. left. lia.
  - simpl. split; [intros _|done]. right. left. lia.
  - cbn [length Nat.ltb Nat.leb lookup list_lookup].
    destruct (_parse_date now (get_text dc)) as [pd|] eqn:Ed.
    + assert (str_eqb pd [] = false) as ->.
      { apply str_eqb_false. intros ->. by apply parse_date_not_nil in Ed. }
      destruct time_slots as [|ts later].
      { simpl. split; [intros _|done]. tauto. }
      cbn [slot_records Nat.add lookup list_lookup]. split.
      * unfold cell_record.
        destruct (_extract_delay_minutes (get_text c1)); [|done].
        by destruct (slot_records _ _ _ _ _).
      * intros [? | [Hl | [(dc' & [= <-] & Hnone) | ?]]]; try done.
        -- simpl in Hl. lia.
        -- congruence.
    + split; [intros _|done]. right. right. left. by exists dc.
Qed.

(** The [except] of lines 108-110: when a cell that has a label, in a dated
    row of a table with a header row, holds a text [_extract_delay_minutes]
    raises on, [get_delay_history_data] returns the empty list, whatever
    the other rows and tables of the page hold. *)
Theorem exception_empties_page (now : datetime)
    (soup table header_row row date_cell delay_cell : Tag)
    (parsed_date time_slot : str) (k : nat) :
  In table (find_all [py "table"] soup) ->
  find_header_row (find_all [py "tr"] table) = Some header_row ->
  In row (find_all [py "tr"] table) ->
  row <> header_row ->
  find_all [py "td"; py "th"] row !! 0%nat = Some date_cell ->
  _parse_date now (get_text date_cell) = Some parsed_date ->
  header_time_slots header_row !! k = Some time_slot ->
  find_all [py "td"; py "th"] row !! (k + 1)%nat = Some delay_cell ->
  _extract_delay_minutes (get_text delay_cell) = None ->
  get_delay_history_data now (Page soup) = []
  /\ get_delay_history_data now RequestFailed = [].
Proof.
  intros Htable Hhead Hrow Hne Hcell Hdate Hslot Hdelay Hraise.
  split; [|done]. simpl.
  assert (Hnone : collect (table_records now) (find_all [py "table"] soup)
                  = None); [|by rewrite Hnone].
  apply collect_none. exists table. split; [done|].
  unfold Scraper.table_records. rewrite Hhead.
  apply collect_none. exists row. split; [done|].
  apply row_records_none. split; [done|].
  by exists date_cell, parsed_date, k, time_slot, delay_cell.
Qed.

(** The cell every record of the assembler comes from. *)
Lemma record_origin (now : datetime) (resp : response Tag)
    (r : delay_record) :
  In r (get_delay_history_data now resp) ->
  exists soup table header_row row date_cell k delay_cell,
    resp = Page soup
    /\ In table (find_all [py "table"] soup)
    /\ find_header_row (find_all [py "tr"] table) = Some header_row
    /\ In row (find_all [py "tr"] table) /\ row <> header_row
    /\ find_all [py "td"; py "th"] row !! 0%nat = Some date_cell
    /\ _parse_date now (get_text date_cell) = Some (date r)
    /\ header_time_slots header_row !! k = Some (time_slot r)
    /\ find_all [py "td"; py "th"] row !! (k + 1)%nat = Some delay_cell
    /\ delay_info r = get_text delay_cell
    /\ _extract_delay_minutes (delay_info r) = Some (delay_minutes r).
Proof.
  intros Hin. apply assembled_record_row in Hin
    as (soup & table & header_row & row & rs & -> & Htable & Hh & Hrow & Hr
        & Hin).
  destruct (row_records_in _ _ _ _ _ _ _ _ Hr Hin)
    as (dc & pd & k & ts & c & m & Hne & Hc0 & Hd & Hk & Hck & Hm & ->).
  exists soup, table, header_row, row, dc, k, c. by repeat split.
Qed.

(** Every record of the assembler (lines 44-100) comes from one cell: a
    table of the page with a header row, another row of that table whose
    first cell gave the record's date, the [k]-th accepted header label and
    the cell at index [k + 1] of the row, whose text is kept in [delay_info]
    and interpreted into [delay_minutes]. *)
Theorem record_provenance (now : datetime) (resp : response Tag)
    (r : delay_record) :
  In r (get_delay_history_data now resp) ->
  exists soup table header_row row date_cell k delay_cell,
    resp = Page soup
    /\ In table (find_all [py "table"] soup)
    /\ find_header_row (find_all [py "tr"] table) = Some header_row
    /\ In row (find_all [py "tr"] table) /\ row <> header_row
    /\ find_all [py "td"; py "th"] row !! 0%nat = Some date_cell
    /\ _parse_date now (get_text date_cell) = Some (date r)
    /\ header_time_slots header_row !! k = Some (time_slot r)
    /\ find_all [py "td"; py "th"] row !! (k + 1)%nat = Some delay_cell
    /\ delay_info r = get_text delay_cell
    /\ _extract_delay_minutes (delay_info r) = Some (delay_minutes r).
Proof. apply record_origin. Qed.

(** The labels (lines 60-65): the [time_slot] of every record is the text of
    a header cell other than the first, is not empty, and contains "時",
    "始発" or "終電"; the header row is one whose cell texts together contain
    both "始発" and "終電". *)
Theorem record_time_slot (now : datetime) (resp : response Tag)
    (r : delay_record) :
  In r (get_delay_history_data now resp) ->
  exists header_row header_cell,
    In header_cell (drop 1 (find_all [py "th"; py "td"] header_row))
    /\ time_slot r = get_text header_cell
    /\ time_slot r <> []
    /\ (occurs_in JI (time_slot r) \/ occurs_in SHIHATSU (time_slot r)
        \/ occurs_in SHUDEN (time_slot r))
    /\ occurs_in SHIHATSU
         (concat (map get_text (find_all [py "th"; py "td"] header_row)))
    /\ occurs_in SHUDEN
         (concat (map get_text (find_all [py "th"; py "td"] header_row))).
Proof.
  intros Hin. apply record_origin in Hin
    as (soup & table & header_row & row & dc & k & c & _ & _ & Hh & _ & _
        & _ & _ & Hk & _).
  apply find_some in Hh as [_ Hh]. unfold Scraper.is_header_row in Hh.
  apply andb_true_iff in Hh as [Hh1 Hh2].
  apply list_elem_of_lookup_2, list_elem_of_In in Hk.
  unfold Scraper.header_time_slots in Hk.
  apply filter_In in Hk as [Hk Hf]. apply in_map_iff in Hk as (hc & Hts & Hhc).
  unfold is_time_slot in Hf. apply andb_true_iff in Hf as [Hf1 Hf2].
  apply negb_true_iff, str_eqb_false in Hf1.
  rewrite !orb_true_iff, !str_in_spec in Hf2.
  apply str_in_spec in Hh1, Hh2.
  exists header_row, hc. split; [done|]. split; [done|]. split; [done|].
  split; [tauto|]. by split.
Qed.

(** In every record of the assembler [delay_minutes] is not negative and is
    the interpretation of the text kept in [delay_info], from which
    [has_delay] follows. *)
Theorem record_minutes_invariant (now : datetime) (resp : response Tag)
    (r : delay_record) :
  In r (get_delay_history_data now resp) ->
  0 <= delay_minutes r
  /\ _extract_delay_minutes (delay_info r) = Some (delay_minutes r)
  /\ has_delay r = (0 <? delay_minutes r).
Proof.
  intros Hin. apply assembled_record_in in Hin as (pd & ts & info & m & Hm & ->).
  unfold make_record. simpl. split; [by apply (extract_nonneg info) | done].
Qed.

Lemma strftime_A_name (dt : datetime) :
  strftime_A dt = default [] (WEEKDAY_NAMES !! Z.to_nat (weekday dt)).
Proof. reflexivity. Qed.

(** What the weekday loop leaves in [all_data]. *)
Lemma weekday_loop_label (now : datetime) (resp : response Tag)
    (w : weekday_record) :
  1 <= dt_year now <= 9999 ->
  In w (weekday_loop (get_delay_history_data now resp)) ->
  In (data w) (get_delay_history_data now resp)
  /\ exists y m d,
       date (data w) = iso_date y m d
       /\ (y = dt_year now \/ y = dt_year now - 1)
       /\ 0 <= m <= 99 /\ 0 <= d <= 99
       /\ (valid_date y m d = true ->
             weekdays !! Z.to_nat (weekday (mk_datetime y m d))
             = Some (weekday_jp w)
             /\ WEEKDAY_NAMES !! Z.to_nat (weekday (mk_datetime y m d))
                = Some (weekday_en w))
       /\ (valid_date y m d = false ->
             weekday_jp w = FUMEI /\ weekday_en w = UNKNOWN).
Proof.
  intros Hy. unfold weekday_loop. rewrite in_map_iff.
  intros (r & <- & Hin). destruct (add_weekday_spec r) as [Hdata _].
  rewrite Hdata. split; [done|].
  apply record_origin in Hin
    as (soup & table & header_row & row & dc & k & c & _ & _ & _ & _ & _
        & _ & Hd & _).
  apply (parse_date_form now _ _ Hy) in Hd
    as (y & m & d & Hor & Hm & Hdd & Hiso & _ & _).
  exists y, m, d. split; [done|]. split; [done|]. split; [done|].
  split; [done|].
  assert (Hyr : 0 <= y <= 9999) by lia.
  unfold add_weekday. rewrite Hiso, (strptime_of_iso_date y m d Hyr Hm Hdd).
  split; intros Hv; rewrite Hv; [|done].
  destruct (japanese_weekday_label (weekday (mk_datetime y m d))
              (weekday_range _)) as (label & -> & Hl & _).
  cbn [weekday_jp weekday_en]. split; [done|].
  rewrite strftime_A_name.
  pose proof (weekday_range (mk_datetime y m d)) as Hw.
  destruct (WEEKDAY_NAMES !! Z.to_nat (weekday (mk_datetime y m d)))
    as [name|] eqn:En; [done|].
  apply lookup_ge_None in En. simpl in En. lia.
Qed.

(** The weekday loop on the assembler's records (lines 169-177), when "now"
    is a [datetime] (years 1 to 9999), as it leaves [all_data] before the
    frame is built: each date string is "YYYY-MM-DD" for a year, a month
    0-99 and a day 0-99; when these are a calendar date the record gets the
    Japanese and the English name of its weekday, and otherwise "不明" and
    "Unknown".  The loop keeps the assembler's record. *)
Theorem record_weekday (now : datetime) (resp : response Tag)
    (w : weekday_record) :
  1 <= dt_year now <= 9999 ->
  In w (weekday_loop (get_delay_history_data now resp)) ->
  In (data w) (get_delay_history_data now resp)
  /\ exists y m d,
       date (data w) = iso_date y m d
       /\ (y = dt_year now \/ y = dt_year now - 1)
       /\ 0 <= m <= 99 /\ 0 <= d <= 99
       /\ (valid_date y m d = true ->
             weekdays !! Z.to_nat (weekday (mk_datetime y m d))
             = Some (weekday_jp w)
             /\ WEEKDAY_NAMES !! Z.to_nat (weekday (mk_datetime y m d))
                = Some (weekday_en w))
       /\ (valid_date y m d = false ->
             weekday_jp w = FUMEI /\ weekday_en w = UNKNOWN).
Proof. apply weekday_loop_label. Qed.

End AssemblerProvenance.

(** The scenario's data row against three labels: two records. *)
Lemma data_row_records_witness :
  row_records Dom.find_all Dom.get_text NOW (Dom.Row HEADER_CELLS)
    [py "始発〜7時"; py "7時〜終電"; py "終電後"] (Dom.Row JULY_3_CELLS)
  = Some [RECORD_EARLY; RECORD_LATE]
  /\ length [RECORD_EARLY; RECORD_LATE]
     = Nat.min (length [py "始発〜7時"; py "7時〜終電"; py "終電後"])
         (length [Dom.Cell (py "-"); Dom.Cell (py "10分")]).
Proof.
  pose proof (@data_row_records Dom.elem Dom.elem_eq_dec Dom.find_all
                Dom.get_text NOW (Dom.Row HEADER_CELLS) (Dom.Row JULY_3_CELLS)
                (Dom.Cell (py "7月3日"))
                [Dom.Cell (py "-"); Dom.Cell (py "10分")]
                [py "始発〜7時"; py "7時〜終電"; py "終電後"] (py "2025-07-03")
                ltac:(by vm_compute) eq_refl ltac:(done) eq_refl)
    as (Heq & _ & Hlen & _).
  split; [by rewrite Heq | by apply Hlen; rewrite Heq].
Defined.

(** A row that lacks its last cell gives one record, for the first label. *)
Example short_row_records :
  get_delay_history_data Dom.find_all Dom.get_text NOW
    (Page (Dom.Soup [[HEADER_CELLS; SHORT_ROW_CELLS]]))
  = [make_record (py "2025-07-04") (py "始発〜7時") (py "15分") 15].
Proof. by vm_compute. Qed.

Lemma record_provenance_witness :
  exists soup table header_row row date_cell k delay_cell,
    Page (Dom.Soup [[HEADER_CELLS; JULY_3_CELLS]]) = Page soup
    /\ In table (Dom.find_all [py "table"] soup)
    /\ find_header_row Dom.find_all Dom.get_text
         (Dom.find_all [py "tr"] table) = Some header_row
    /\ In row (Dom.find_all [py "tr"] table) /\ row <> header_row
    /\ Dom.find_all [py "td"; py "th"] row !! 0%nat = Some date_cell
    /\ _parse_date NOW (Dom.get_text date_cell) = Some (date RECORD_LATE)
    /\ header_time_slots Dom.find_all Dom.get_text header_row !! k
       = Some (time_slot RECORD_LATE)
    /\ Dom.find_all [py "td"; py "th"] row !! (k + 1)%nat = Some delay_cell
    /\ delay_info RECORD_LATE = Dom.get_text delay_cell
    /\ _extract_delay_minutes (delay_info RECORD_LATE)
       = Some (delay_minutes RECORD_LATE).
Proof.
  apply (@record_provenance Dom.elem Dom.elem_eq_dec Dom.find_all Dom.get_text
           NOW (Page (Dom.Soup [[HEADER_CELLS; JULY_3_CELLS]])) RECORD_LATE).
  vm_compute. tauto.
Defined.

Lemma record_time_slot_witness :
  exists header_row header_cell,
    In header_cell (drop 1 (Dom.find_all [py "th"; py "td"] header_row))
    /\ time_slot RECORD_LATE = Dom.get_text header_cell
    /\ time_slot RECORD_LATE <> []
    /\ (occurs_in JI (time_slot RECORD_LATE)
        \/ occurs_in SHIHATSU (time_slot RECORD_LATE)
        \/ occurs_in SHUDEN (time_slot RECORD_LATE))
    /\ occurs_in SHIHATSU
         (concat (map Dom.get_text (Dom.find_all [py "th"; py "td"] header_row)))
    /\ occurs_in SHUDEN
         (concat (map Dom.get_text (Dom.find_all [py "th"; py "td"] header_row))).
Proof.
  apply (@record_time_slot Dom.elem Dom.elem_eq_dec Dom.find_all Dom.get_text
           NOW (Page (Dom.Soup [[HEADER_CELLS; JULY_3_CELLS]])) RECORD_LATE).
  vm_compute. tauto.
Defined.

Lemma record_minutes_invariant_witness :
  0 <= delay_minutes RECORD_LATE
  /\ _extract_delay_minutes (delay_info RECORD_LATE)
     = Some (delay_minutes RECORD_LATE)
  /\ has_delay RECORD_LATE = (0 <? delay_minutes RECORD_LATE).
Proof.
  apply (@record_minutes_invariant Dom.elem Dom.elem_eq_dec Dom.find_all
           Dom.get_text NOW (Page (Dom.Soup [[HEADER_CELLS; JULY_3_CELLS]]))).
  vm_compute. tauto.
Defined.

(** The 30th of February: when the loop ends the record is in [all_data],
    with "不明" and "Unknown". *)
Lemma record_weekday_witness :
  In (data (add_weekday
              (make_record (py "2025-02-30") (py "7時〜終電") (py "10分") 10)))
    (get_delay_history_data Dom.find_all Dom.get_text NOW
       (Page (Dom.Soup [[HEADER_CELLS; FEB_30_CELLS]])))
  /\ exists y m d,
       date (data (add_weekday
                     (make_record (py "2025-02-30") (py "7時〜終電")
                        (py "10分") 10)))
       = iso_date y m d
       /\ (y = dt_year NOW \/ y = dt_year NOW - 1)
       /\ 0 <= m <= 99 /\ 0 <= d <= 99
       /\ (valid_date y m d = true ->
             weekdays !! Z.to_nat (weekday (mk_datetime y m d))
             = Some (weekday_jp
                       (add_weekday
                          (make_record (py "2025-02-30") (py "7時〜終電")
                             (py "10分") 10)))
             /\ WEEKDAY_NAMES !! Z.to_nat (weekday (mk_datetime y m d))
                = Some (weekday_en
                          (add_weekday
                             (make_record (py "2025-02-30") (py "7時〜終電")
                                (py "10分") 10))))
       /\ (valid_date y m d = false ->
             weekday_jp
               (add_weekday
                  (make_record (py "2025-02-30") (py "7時〜終電") (py "10分") 10))
             = FUMEI
             /\ weekday_en
                  (add_weekday
                     (make_record (py "2025-02-30") (py "7時〜終電")
                        (py "10分") 10))
                = UNKNOWN).
Proof.
  apply (@record_weekday Dom.elem Dom.elem_eq_dec Dom.find_all Dom.get_text NOW
           (Page (Dom.Soup [[HEADER_CELLS; FEB_30_CELLS]]))).
  - simpl. lia.
  - vm_compute. tauto.
Defined.

(** ** The weekday table *)

Lemma weekdays_distinct : NoDup weekdays.
Proof. apply (bool_decide_unpack _). by vm_compute. Qed.

(** [_get_japanese_weekday] (lines 197-200) answers exactly for the indexes
    -7 to 6, a negative index counting from the end of the table, and gives
    different labels to different weekdays 0 to 6. *)
Theorem japanese_weekday_domain (w : Z) :
  (is_Some (_get_japanese_weekday w) <-> -7 <= w <= 6)
  /\ (-7 <= w < 0 -> _get_japanese_weekday w = _get_japanese_weekday (w + 7))
  /\ (forall w', 0 <= w <= 6 -> 0 <= w' <= 6 ->
        _get_japanese_weekday w = _get_japanese_weekday w' -> w = w').
Proof.
  split; [|split].
  - split.
    + unfold _get_japanese_weekday, py_index.
      change (Z.of_nat (length weekdays)) with 7.
      destruct ((0 <=? w) && (w <? 7)) eqn:E1;
        [apply andb_true_iff in E1 as [?%Z.leb_le ?%Z.ltb_lt]; lia|].
      destruct ((- (7) <=? w) && (w <? 0)) eqn:E2;
        [apply andb_true_iff in E2 as [?%Z.leb_le ?%Z.ltb_lt]; lia|].
      by intros [? ?].
    + intros Hw.
      assert (w = -7 \/ w = -6 \/ w = -5 \/ w = -4 \/ w = -3 \/ w = -2
              \/ w = -1 \/ w = 0 \/ w = 1 \/ w = 2 \/ w = 3 \/ w = 4
              \/ w = 5 \/ w = 6) as Hc by lia.
      repeat (destruct Hc as [-> | Hc]; [by eexists|]). subst w. by eexists.
  - intros Hw.
    assert (w = -7 \/ w = -6 \/ w = -5 \/ w = -4 \/ w = -3 \/ w = -2
            \/ w = -1) as Hc by lia.
    repeat (destruct Hc as [-> | Hc]; [reflexivity|]). by subst w.
  - intros w' Hw Hw' Heq.
    destruct (japanese_weekday_label w ltac:(lia)) as (l & Hl & Hi & _).
    destruct (japanese_weekday_label w' ltac:(lia)) as (l' & Hl' & Hi' & _).
    rewrite Hl, Hl' in Heq. injection Heq as <-.
    pose proof (NoDup_lookup _ _ _ _ weekdays_distinct Hi Hi'). lia.
Qed.

Lemma japanese_weekday_domain_witness :
  _get_japanese_weekday (-1) = _get_japanese_weekday (-1 + 7).
Proof. apply (proj1 (proj2 (japanese_weekday_domain (-1)))). lia. Defined.

(** ** The path of the dataset file *)

Lemma two_digits_inj (m n : Z) :
  0 <= m <= 99 -> 0 <= n <= 99 ->
  0x30 + m / 10 = 0x30 + n / 10 -> 0x30 + m mod 10 = 0x30 + n mod 10 -> m = n.
Proof. intros Hm Hn H1 H2. Z.to_euclidean_division_equations. lia. Qed.

Lemma four_digits_inj (m n : Z) :
  0 <= m <= 9999 -> 0 <= n <= 9999 ->
  0x30 + m / 1000 = 0x30 + n / 1000 ->
  0x30 + m / 100 mod 10 = 0x30 + n / 100 mod 10 ->
  0x30 + m / 10 mod 10 = 0x30 + n / 10 mod 10 ->
  0x30 + m mod 10 = 0x30 + n mod 10 -> m = n.
Proof.
  intros Hm Hn H1 H2 H3 H4.
  rewrite <- (int_of_four_digits m Hm), <- (int_of_four_digits n Hn).
  by rewrite H1, H2, H3, H4.
Qed.

(** The timestamp is fifteen characters: "YYYYMMDD_HHMMSS". *)
Lemma strftime_stamp_shape (t : clock) :
  valid_clock t ->
  strftime_stamp t
  = [0x30 + dt_year (clock_date t) / 1000;
     0x30 + dt_year (clock_date t) / 100 mod 10;
     0x30 + dt_year (clock_date t) / 10 mod 10;
     0x30 + dt_year (clock_date t) mod 10;
     0x30 + dt_month (clock_date t) / 10; 0x30 + dt_month (clock_date t) mod 10;
     0x30 + dt_day (clock_date t) / 10; 0x30 + dt_day (clock_date t) mod 10;
     0x5f;
     0x30 + clock_hour t / 10; 0x30 + clock_hour t mod 10;
     0x30 + clock_minute t / 10; 0x30 + clock_minute t mod 10;
     0x30 + clock_second t / 10; 0x30 + clock_second t mod 10].
Proof.
  intros (Hy & Hmo & Hd & Hh & Hmi & Hs). unfold strftime_stamp.
  rewrite format_04d_shape by lia. by rewrite !format_02d_shape by lia.
Qed.

(** With no file name given (lines 204-211), [save_data] writes to
    "data/yamanote_delay_data_<YYYYMMDD_HHMMSS>.csv", a path of 44
    characters, and two calls at different seconds never get the same
    path. *)
Theorem save_data_default_path (t1 t2 : clock) :
  valid_clock t1 -> valid_clock t2 ->
  save_data t1 None
  = py "data/yamanote_delay_data_" ++ strftime_stamp t1 ++ py ".csv"
  /\ length (save_data t1 None) = 44%nat
  /\ (save_data t1 None = save_data t2 None -> t1 = t2).
Proof.
  intros Hv1 Hv2.
  assert (Hpath : forall t, save_data t None
            = py "data/yamanote_delay_data_" ++ strftime_stamp t ++ py ".csv")
    by reflexivity.
  split; [done|]. split.
  - rewrite Hpath, (strftime_stamp_shape t1 Hv1). reflexivity.
  - rewrite !Hpath, (strftime_stamp_shape t1 Hv1), (strftime_stamp_shape t2 Hv2).
    intros Heq. apply app_inv_head in Heq.
    destruct Hv1 as (? & ? & ? & ? & ? & ?), Hv2 as (? & ? & ? & ? & ? & ?).
    destruct t1 as [[y1 mo1 d1] h1 mi1 s1], t2 as [[y2 mo2 d2] h2 mi2 s2].
    cbn [clock_date clock_hour clock_minute clock_second dt_year dt_month
         dt_day] in *.
    cbn [app] in Heq.
    injection Heq as Ey1 Ey2 Ey3 Ey4 Em1 Em2 Ed1 Ed2 Eh1 Eh2 Ei1 Ei2 Es1 Es2.
    assert (y1 = y2) as -> by (apply four_digits_inj; (lia || done)).
    assert (mo1 = mo2) as -> by (apply two_digits_inj; (lia || done)).
    assert (d1 = d2) as -> by (apply two_digits_inj; (lia || done)).
    assert (h1 = h2) as -> by (apply two_digits_inj; (lia || done)).
    assert (mi1 = mi2) as -> by (apply two_digits_inj; (lia || done)).
    assert (s1 = s2) as -> by (apply two_digits_inj; (lia || done)).
    reflexivity.
Qed.

Lemma save_data_default_path_witness :
  save_data (mk_clock NOW 9 5 30) None
  = py "data/yamanote_delay_data_" ++ strftime_stamp (mk_clock NOW 9 5 30)
    ++ py ".csv"
  /\ length (save_data (mk_clock NOW 9 5 30) None) = 44%nat
  /\ (save_data (mk_clock NOW 9 5 30) None
      = save_data (mk_clock NOW 9 5 31) None ->
      mk_clock NOW 9 5 30 = mk_clock NOW 9 5 31).
Proof.
  apply save_data_default_path; unfold valid_clock; simpl; lia.
Defined.

Example save_data_paths :
  save_data (mk_clock NOW 9 5 30) None
  = py "data/yamanote_delay_data_20250715_090530.csv"
  /\ save_data (mk_clock NOW 9 5 30) (Some (py "july.csv")) = py "data/july.csv"
  /\ save_data (mk_clock NOW 9 5 30) (Some (py "/tmp/july.csv"))
     = py "/tmp/july.csv".
Proof. by vm_compute. Qed.

(** ** The rows that add nothing *)

Example skipped_rows :
  get_delay_history_data Dom.find_all Dom.get_text NOW
    (Page (Dom.Soup [[[py "7月1日"; py "30分"]; HEADER_CELLS; [py "7月2日"];
                      [py "合計"; py "10分"]; JULY_3_CELLS]]))
  = [make_record (py "2025-07-01") (py "始発〜7時") (py "30分") 30;
     RECORD_EARLY; RECORD_LATE].
Proof. by vm_compute. Qed.

(** One cell with 4301 digits before "分" empties the whole page. *)
Lemma exception_empties_page_witness :
  get_delay_history_data Dom.find_all Dom.get_text NOW
    (Page (Dom.Soup [[HEADER_CELLS; JULY_3_CELLS;
                      [py "7月4日"; py "5分"; replicate 4301 0x31 ++ py "分"]]]))
  = []
  /\ get_delay_history_data Dom.find_all Dom.get_text NOW RequestFailed = [].
Proof.
  apply (@exception_empties_page Dom.elem Dom.elem_eq_dec Dom.find_all
           Dom.get_text NOW
           (Dom.Soup [[HEADER_CELLS; JULY_3_CELLS;
                       [py "7月4日"; py "5分"; replicate 4301 0x31 ++ py "分"]]])
           (Dom.Table [HEADER_CELLS; JULY_3_CELLS;
                       [py "7月4日"; py "5分"; replicate 4301 0x31 ++ py "分"]])
           (Dom.Row HEADER_CELLS)
           (Dom.Row [py "7月4日"; py "5分"; replicate 4301 0x31 ++ py "分"])
           (Dom.Cell (py "7月4日"))
           (Dom.Cell (replicate 4301 0x31 ++ py "分"))
           (py "2025-07-04") (py "7時〜終電") 1%nat).
  - left. reflexivity.
  - reflexivity.
  - vm_compute. tauto.
  - by vm_compute.
  - reflexivity.
  - reflexivity.
  - reflexivity.
  - reflexivity.
  - by vm_compute.
Defined.

(** ** The frame that is returned *)

Lemma frame_rows_in {Timestamp : Type} (all_data : list weekday_record)
    (dates : list Timestamp) (minutes : list Z) (row : frame_row Timestamp) :
  In row (frame_rows all_data dates minutes) -> In (row_dict row) all_data.
Proof.
  revert dates minutes.
  induction all_data as [|w all_data IH]; intros dates minutes; [done|].
  destruct dates as [|t dates]; [done|].
  destruct minutes as [|m minutes]; [done|].
  simpl. intros [<- | Hin]; [by left|]. right. by apply (IH dates minutes).
Qed.

(** The dates [Dom.to_datetime] accepts are calendar dates. *)
Lemma dom_to_datetime_calendar (dates : list str) (stamps : list datetime) :
  Dom.to_datetime dates = Some stamps ->
  forall y m d,
    0 <= y <= 9999 -> 0 <= m <= 99 -> 0 <= d <= 99 ->
    In (iso_date y m d) dates -> valid_date y m d = true.
Proof.
  unfold Dom.to_datetime. intros Hsome y m d Hy Hm Hd Hin.
  assert (Hall : is_Some (mapM strptime_ymd dates)) by by eexists.
  rewrite mapM_is_Some, Forall_forall in Hall.
  apply list_elem_of_In, Hall in Hin as [dt Hdt]. simpl in Hdt.
  rewrite (strptime_of_iso_date y m d Hy Hm Hd) in Hdt.
  by destruct (valid_date y m d).
Qed.

Section Frame.

Context {Tag : Type} `{EqDecision Tag}.
Context (find_all : list str -> Tag -> list Tag) (get_text : Tag -> str).
Context {Timestamp : Type}.
Context (to_datetime : list str -> option (list Timestamp)).
Context (astype_int : list Z -> option (list Z)).

Local Abbreviation get_delay_history_data :=
  (Scraper.get_delay_history_data find_all get_text).
Local Abbreviation scrape_delay_history :=
  (Scraper.scrape_delay_history find_all get_text to_datetime astype_int).

(** What is used of [pd.to_datetime] (line 183): it raises on a column that
    holds a string "YYYY-MM-DD" whose year, month and day are no calendar
    date. *)
Hypothesis to_datetime_calendar :
  forall (dates : list str) (stamps : list Timestamp),
    to_datetime dates = Some stamps ->
    forall y m d,
      0 <= y <= 9999 -> 0 <= m <= 99 -> 0 <= d <= 99 ->
      In (iso_date y m d) dates -> valid_date y m d = true.

(** The rows of the frame are the dicts the weekday loop left. *)
Lemma frame_row_dict (now : datetime) (resp : response Tag)
    (frame : list (frame_row Timestamp)) (row : frame_row Timestamp) :
  scrape_delay_history now resp = Some frame ->
  In row frame ->
  In (row_dict row) (weekday_loop (get_delay_history_data now resp))
  /\ exists stamps,
       to_datetime
         (map (fun w => date (data w))
            (weekday_loop (get_delay_history_data now resp)))
       = Some stamps.
Proof.
  unfold Scraper.scrape_delay_history. cbv zeta.
  destruct (weekday_loop (get_delay_history_data now resp))
    as [|w0 all_data] eqn:Ea; [by intros [= <-] []|].
  destruct (to_datetime _) as [dates|] eqn:Et; [|done].
  destruct (astype_int _) as [minutes|]; [|done].
  intros Heq Hin. injection Heq as <-.
  split; [exact (frame_rows_in (w0 :: all_data) dates minutes row Hin) | by exists dates].
Qed.

(** C3: when [scrape_delay_history] returns a frame, the weekday_jp of every
    row is one of the seven labels ['月','火','水','木','金','土','日']: the
    row's date string is a calendar date, and the label is the one at that
    date's weekday (Monday first) in the fixed table, so it depends on the
    date alone; 2025-07-14 gives "月" and 2025-07-20 gives "日".  "now" is a
    [datetime] (years 1 to 9999). *)
Theorem C3_weekday_label (now : datetime) (resp : response Tag)
    (frame : list (frame_row Timestamp)) (row : frame_row Timestamp) :
  1 <= dt_year now <= 9999 ->
  scrape_delay_history now resp = Some frame ->
  In row frame ->
  In (weekday_jp (row_dict row)) weekdays
  /\ (exists date_obj,
        strptime_ymd (date (data (row_dict row))) = Some date_obj
        /\ _get_japanese_weekday (weekday date_obj)
           = Some (weekday_jp (row_dict row))
        /\ weekdays !! Z.to_nat (weekday date_obj)
           = Some (weekday_jp (row_dict row)))
  /\ (date (data (row_dict row)) = py "2025-07-14" ->
      weekday_jp (row_dict row) = py "月")
  /\ (date (data (row_dict row)) = py "2025-07-20" ->
      weekday_jp (row_dict row) = py "日").
Proof.
  intros Hy Hframe Hrow.
  destruct (frame_row_dict now resp frame row Hframe Hrow)
    as (Hin & stamps & Hstamps).
  assert (Hdate : In (date (data (row_dict row)))
                    (map (fun w => date (data w))
                       (weekday_loop (get_delay_history_data now resp)))).
  { apply in_map_iff. by exists (row_dict row). }
  destruct (weekday_loop_label find_all get_text now resp (row_dict row)
              Hy Hin)
    as (_ & y & m & d & Hiso & Hor & Hm & Hd & Hvalid & _).
  assert (Hyr : 0 <= y <= 9999) by lia.
  rewrite Hiso in Hdate.
  pose proof (to_datetime_calendar _ _ Hstamps y m d Hyr Hm Hd Hdate) as Hv.
  destruct (Hvalid Hv) as [Hjp _].
  assert (Hstr : strptime_ymd (date (data (row_dict row)))
                 = Some (mk_datetime y m d)).
  { by rewrite Hiso, (strptime_of_iso_date y m d Hyr Hm Hd), Hv. }
  assert (Hlabel : _get_japanese_weekday (weekday (mk_datetime y m d))
                   = Some (weekday_jp (row_dict row))).
  { destruct (japanese_weekday_label (weekday (mk_datetime y m d))
                (weekday_range _)) as (label & Hl & Hi & _).
    rewrite Hl. congruence. }
  split; [by eapply list_elem_of_In, list_elem_of_lookup_2|].
  split; [by exists (mk_datetime y m d)|].
  split; intros Heq; rewrite Heq in Hstr; vm_compute in Hstr;
    injection Hstr as <- <- <-.
  - assert (Hmon : weekdays !! Z.to_nat (weekday (mk_datetime 2025 7 14))
                   = Some (py "月")) by reflexivity.
    congruence.
  - assert (Hsun : weekdays !! Z.to_nat (weekday (mk_datetime 2025 7 20))
                   = Some (py "日")) by reflexivity.
    congruence.
Qed.

End Frame.

(** The frame of a page with the rows "7月14日" and "7月20日", read on
    2025-07-15: Monday and Sunday. *)
Example frame_monday_sunday :
  option_map
    (map (fun row => (date (data (row_dict row)), row_date row,
                      row_delay_minutes row, weekday_jp (row_dict row))))
    (Dom.scrape NOW
       (Dom.Soup [[HEADER_CELLS; [py "7月14日"; py "-"; py "10分"];
                   [py "7月20日"; py "61分以上"]]]))
  = Some [(py "2025-07-14", mk_datetime 2025 7 14, 0, py "月");
          (py "2025-07-14", mk_datetime 2025 7 14, 10, py "月");
          (py "2025-07-20", mk_datetime 2025 7 20, 61, py "日")].
Proof. by vm_compute. Qed.

(** C3 on the second row of that frame. *)
Lemma C3_weekday_label_witness :
  In (py "月") weekdays
  /\ (exists date_obj,
        strptime_ymd (py "2025-07-14") = Some date_obj
        /\ _get_japanese_weekday (weekday date_obj) = Some (py "月")
        /\ weekdays !! Z.to_nat (weekday date_obj) = Some (py "月"))
  /\ (py "2025-07-14" = py "2025-07-14" -> py "月" = py "月")
  /\ (py "2025-07-14" = py "2025-07-20" -> py "月" = py "日").
Proof.
  apply (@C3_weekday_label Dom.elem Dom.elem_eq_dec Dom.find_all Dom.get_text
           datetime Dom.to_datetime Dom.astype_int dom_to_datetime_calendar
           NOW
           (Page (Dom.Soup [[HEADER_CELLS; [py "7月14日"; py "-"; py "10分"];
                             [py "7月20日"; py "61分以上"]]]))
           [mk_frame_row
              (add_weekday (make_record (py "2025-07-14") (py "始発〜7時")
                              (py "-") 0))
              (mk_datetime 2025 7 14) 0;
            mk_frame_row
              (add_weekday (make_record (py "2025-07-14") (py "7時〜終電")
                              (py "10分") 10))
              (mk_datetime 2025 7 14) 10;
            mk_frame_row
              (add_weekday (make_record (py "2025-07-20") (py "始発〜7時")
                              (py "61分以上") 61))
              (mk_datetime 2025 7 20) 61]
           (mk_frame_row
              (add_weekday (make_record (py "2025-07-14") (py "7時〜終電")
                              (py "10分") 10))
              (mk_datetime 2025 7 14) 10)).
  - simpl. lia.
  - by vm_compute.
  - right. left. reflexivity.
Defined.

(** The row "2月30日": the weekday loop gives its records "不明", and
    [pd.to_datetime] then raises on their date string, so no frame is
    returned. *)
Example feb_30_page_raises :
  map (fun w => (date (data w), weekday_jp w))
    (weekday_loop
       (get_delay_history_data Dom.find_all Dom.get_text NOW
          (Page (Dom.Soup [[HEADER_CELLS; FEB_30_CELLS]]))))
  = [(py "2025-02-30", FUMEI); (py "2025-02-30", FUMEI)]
  /\ Dom.scrape NOW (Dom.Soup [[HEADER_CELLS; FEB_30_CELLS]]) = None.
Proof. by vm_compute. Qed.
